(** * buildScript.py: clean the build directories and patch the assembly version

    A shallow embedding of [buildScript.py], the build-preparation script of
    the Color Selector repository, and the properties of its three stages:
    argument and location checks, the two cleaning passes, and the rewrite
    of the [<AssemblyVersion>] line of the two project files.

    Strings are Rocq strings.  A text file is the string the text layer of
    the interpreter hands to the script, and [readlines] cuts it after each
    newline character.  The operating system is a record of directories,
    files and paths whose removal is refused; every interaction of the
    script with it is appended to a log of events. *)

From Stdlib Require Import Ascii.
From stdpp Require Import gmap strings list fin_maps.

(** The newline character, as a one-character string. *)
Definition nl : string := String "010"%char "".

(** ** The built-ins of the language that the script calls *)

Module Py.

(** [sub in s] and [s.index(sub)] both rest on the position of the first
    occurrence of [sub] in [s]; [None] is the case in which [in] answers
    [False] and [index] raises [ValueError]. *)
Fixpoint find (sub s : string) {struct s} : option nat :=
  if String.prefix sub s then Some 0
  else match s with
       | EmptyString => None
       | String _ s' => S <$> find sub s'
       end.

Definition contains (sub s : string) : bool :=
  match find sub s with Some _ => true | None => false end.

(** The slice [s[:n]]. *)
Fixpoint slice_to (n : nat) (s : string) : string :=
  match n, s with
  | S n', String c s' => String c (slice_to n' s')
  | _, _ => EmptyString
  end.

(** [s.split(sep)] for a one-character separator. *)
Fixpoint split (sep : ascii) (s : string) : list string :=
  match s with
  | EmptyString => [EmptyString]
  | String c s' =>
      if Ascii.eqb c sep then EmptyString :: split sep s'
      else match split sep s' with
           | [] => [String c EmptyString]
           | x :: xs => String c x :: xs
           end
  end.

(** [f.readlines()]: the lines of a text, each with its newline; a last
    line without newline is kept as it is. *)
Fixpoint readlines (s : string) : list string :=
  match s with
  | EmptyString => []
  | String c s' =>
      if Ascii.eqb c "010" then String c EmptyString :: readlines s'
      else match readlines s' with
           | [] => [String c EmptyString]
           | l :: ls => String c l :: ls
           end
  end.

(** [f.writelines(lines)]: the lines one after the other, nothing added. *)
Definition writelines (lines : list string) : string :=
  foldr String.append EmptyString lines.

(** [template.format(args)] for templates whose fields are [{0}] to
    [{9}]. *)
Fixpoint format (template : string) (args : list string) : string :=
  match template with
  | EmptyString => EmptyString
  | String c t' =>
      match c, t' with
      | "{"%char, String d (String "}"%char t'') =>
          match Ascii.is_nat d with
          | Some i => default EmptyString (args !! i) +:+ format t'' args
          | None => String c (format t' args)
          end
      | _, _ => String c (format t' args)
      end
  end.

(** [l.index(x)]: the position of the first element equal to [x];
    [None] where the language raises [ValueError]. *)
Fixpoint list_index (x : string) (l : list string) : option nat :=
  match l with
  | [] => None
  | y :: l' => if decide (y = x) then Some 0 else S <$> list_index x l'
  end.

(** [l.remove(x)]: the list without its first element equal to [x];
    [None] where the language raises [ValueError]. *)
Fixpoint list_remove (x : string) (l : list string) : option (list string) :=
  match l with
  | [] => None
  | y :: l' => if decide (y = x) then Some l' else (y ::.) <$> list_remove x l'
  end.

(** [l.insert(i, x)] for [i >= 0]: [x] goes before position [i], or at
    the end when the list is shorter. *)
Definition list_insert_at (i : nat) (x : string) (l : list string) : list string :=
  take i l ++ x :: drop i l.

End Py.

(** ** The operating system, as far as the script sees it *)

(** What the script does to the outside world, in the order it does it. *)
Inductive Event : Type :=
  | EPrint (msg : string)
  | EIsdir (path : string)
  | ERmtree (path : string)
  | ESleep (seconds : nat)
  | ERead (path : string)
  | EWrite (path content : string).

#[global] Instance Event_eq_dec : EqDecision Event.
Proof. solve_decision. Defined.

(** The events that change the file system. *)
Definition mutates (ev : Event) : bool :=
  match ev with
  | ERmtree _ | EWrite _ _ => true
  | _ => false
  end.

(** Directories, text files with their content, and the paths whose removal
    the system refuses (a lock held by another program). *)
Record FS : Type := mkFS {
  dirs : gset string;
  files : gmap string string;
  locked : gset string
}.

Record World : Type := mkWorld {
  fs : FS;
  log : list Event
}.

(** How a piece of the script ends: normally, by [sys.exit()], or by an
    exception that nothing catches. *)
Inductive Result (A : Type) : Type :=
  | Done (a : A)
  | Exited
  | Raised (exn : string).
Arguments Done {A} a.
Arguments Exited {A}.
Arguments Raised {A} exn.

Definition M (A : Type) : Type := World → Result A * World.

#[global] Instance M_ret : MRet M := λ A a w, (Done a, w).

#[global] Instance M_bind : MBind M := λ A B k m w,
  match m w with
  | (Done a, w') => k a w'
  | (Exited, w') => (Exited, w')
  | (Raised exn, w') => (Raised exn, w')
  end.

Definition emit (evs : list Event) (w : World) : World :=
  {| fs := fs w; log := log w ++ evs |}.

Definition raise {A} (exn : string) : M A := λ w, (Raised exn, w).
Definition sys_exit {A} : M A := λ w, (Exited, w).
Definition print (msg : string) : M unit := λ w, (Done (), emit [EPrint msg] w).

(** An [if] without [else]. *)
Definition when (b : bool) (m : M unit) : M unit := if b then m else mret ().

(** A result of a built-in that raises where the model has [None]. *)
Definition or_raise {A} (exn : string) (o : option A) : M A :=
  match o with Some a => mret a | None => raise exn end.

(** [q] lies beneath the directory [p]. *)
Definition beneath (p q : string) : bool := String.prefix (p +:+ "\") q.

Definition within (p q : string) : bool := bool_decide (q = p) || beneath p q.

(** [os.path.isdir(path)]. *)
Definition isdir (path : string) : M bool :=
  λ w, (Done (bool_decide (path ∈ dirs (fs w))), emit [EIsdir path] w).

(** What is left of the file system once the tree at [path] is gone. *)
Definition without_tree (path : string) (s : FS) : FS :=
  {| dirs := filter (λ d, within path d = false) (dirs s);
     files := filter (λ kv, beneath path kv.1 = false) (files s);
     locked := locked s |}.

(** The system refuses to remove the tree at [path]: the path itself or
    something in it is locked. *)
Definition refuses (s : FS) (path : string) : Prop :=
  set_Exists (λ q, within path q = true) (locked s).

#[global] Instance refuses_dec s path : Decision (refuses s path).
Proof. unfold refuses. apply _. Defined.

(** [shutil.rmtree(path, ignore_errors=False)]: the error of a refused
    removal is raised, not swallowed. *)
Definition rmtree (path : string) : M unit :=
  λ w, if decide (refuses (fs w) path)
       then (Raised "OSError", emit [ERmtree path] w)
       else (Done (), {| fs := without_tree path (fs w);
                         log := log w ++ [ERmtree path] |}).

(** [time.sleep(seconds)]; meanwhile other programs do [others] to the
    file system. *)
Definition sleep (others : FS → FS) (seconds : nat) : M unit :=
  λ w, (Done (), {| fs := others (fs w); log := log w ++ [ESleep seconds] |}).

(** [open(file, 'r')] followed by [readlines()].  The world holds of each
    file the text that the text layer presents to the script, that is, the
    characters of the file after [universal_newlines] (below). *)
Definition read_lines (file : string) : M (list string) :=
  λ w, match files (fs w) !! file with
       | Some content => (Done (Py.readlines content), emit [ERead file] w)
       | None => (Raised "IOError", emit [ERead file] w)
       end.

(** [open(file, 'w')] followed by [writelines(text)].  The world then holds
    the text written; the characters that reach the file are [to_linesep]
    (below) of it. *)
Definition with_file (file content : string) (s : FS) : FS :=
  {| dirs := dirs s; files := <[file := content]> (files s); locked := locked s |}.

Definition write_lines (file : string) (text : list string) : M unit :=
  λ w, (Done (),
        {| fs := with_file file (Py.writelines text) (fs w);
           log := log w ++ [EWrite file (Py.writelines text)] |}).

(** ** The script *)

(** What the script finds when it starts: its arguments, the two values it
    derives from its own location, the separator of the host ([os.sep],
    which it never consults), and what other programs do to the file system
    while it sleeps. *)
Record Env : Type := mkEnv {
  argv0 : string;
  args : list string;
  currentDirectory : string;
  currentDirectoryName : string;
  os_sep : string;
  during_sleep : FS → FS
}.

Definition sys_argv (e : Env) : list string := argv0 e :: args e.

Definition CleanDirectories (colorSelectorDir colorSelectorStandaloneDir : string)
  : M unit :=
  (b ← isdir (Py.format "{0}\{1}" [colorSelectorDir; "bin"]);
   when b (rmtree (Py.format "{0}\{1}" [colorSelectorDir; "bin"]))) ;;
  (b ← isdir (Py.format "{0}\{1}" [colorSelectorDir; "obj"]);
   when b (rmtree (Py.format "{0}\{1}" [colorSelectorDir; "obj"]))) ;;
  (b ← isdir (Py.format "{0}\{1}" [colorSelectorStandaloneDir; "bin"]);
   when b (rmtree (Py.format "{0}\{1}" [colorSelectorStandaloneDir; "bin"]))) ;;
  (b ← isdir (Py.format "{0}\{1}" [colorSelectorStandaloneDir; "obj"]);
   when b (rmtree (Py.format "{0}\{1}" [colorSelectorStandaloneDir; "obj"]))).

Definition tag : string := "<AssemblyVersion>".

(** The loop over the lines: the variable starts empty and every line with
    the tag overwrites it. *)
Definition assemblyVersionLine (text : list string) : string :=
  foldl (λ found line, if Py.contains tag line then line else found)
        EmptyString text.

Definition UpdateCsprojAssemblyVersion (versionString file : string) : M unit :=
  text ← read_lines file;
  let line := assemblyVersionLine text in
  if decide (line = EmptyString) then
    print (Py.format "Warning: could not find AssemblyVersion line in {0}" [file])
  else
    assemblyIndex ← or_raise "ValueError" (Py.list_index line text);
    lt ← or_raise "ValueError" (Py.find "<" line);
    let leadingSpaces := Py.slice_to lt line in
    text' ← or_raise "ValueError" (Py.list_remove line text);
    write_lines file
      (Py.list_insert_at assemblyIndex
         (Py.format ("{0}<AssemblyVersion>{1}</AssemblyVersion>" +:+ nl)
                    [leadingSpaces; versionString])
         text').

Definition colorSelectorDir (e : Env) : string :=
  Py.format "{0}\{1}" [currentDirectory e; "ColorSelector"].
Definition colorSelectorStandaloneDir (e : Env) : string :=
  Py.format "{0}\{1}" [currentDirectory e; "ColorSelectorTestApp"].
Definition colorSelectorCsproj (e : Env) : string :=
  Py.format "{0}\{1}" [colorSelectorDir e; "ColorSelector.csproj"].
Definition colorSelectorStandaloneCsproj (e : Env) : string :=
  Py.format "{0}\{1}" [colorSelectorStandaloneDir e; "ColorSelectorStandalone.csproj"].

Definition usage (e : Env) : string :=
  "Usage: " +:+ argv0 e +:+ "[version string]".
Definition version_error : string :=
  "Error: Version string must contain major,minor, and revision numbers separated by '.'".
Definition location_error : string :=
  "Error: build script must be run from repository root! Exiting...".

(** The statements of the script after the location check. *)
Definition build (e : Env) (versionString : string) : M unit :=
  print "Cleaning bin and obj directories ..." ;;
  CleanDirectories (colorSelectorDir e) (colorSelectorStandaloneDir e) ;;
  sleep (during_sleep e) 3 ;;
  CleanDirectories (colorSelectorDir e) (colorSelectorStandaloneDir e) ;;
  print "done." ;;
  print "Setting version {0} in .csproj files ..." ;;
  UpdateCsprojAssemblyVersion versionString (colorSelectorCsproj e) ;;
  UpdateCsprojAssemblyVersion versionString (colorSelectorStandaloneCsproj e) ;;
  print "done.".

(** The script, top to bottom. *)
Definition main (e : Env) : M unit :=
  when (length (sys_argv e) <? 2) (print (usage e) ;; sys_exit) ;;
  versionString ← or_raise "IndexError" (sys_argv e !! 1);
  when (negb (length (Py.split "." versionString) =? 3))
       (print version_error ;; sys_exit) ;;
  when (negb (bool_decide (currentDirectoryName e = "Color Selector")))
       (print location_error ;; sys_exit) ;;
  build e versionString.

(** ** What the properties are stated with *)

(** A line carries the tag. *)
Definition has_tag (line : string) : Prop := Py.contains tag line = true.

#[global] Instance has_tag_dec line : Decision (has_tag line).
Proof. unfold has_tag. apply _. Defined.

(** [lead] is the text of [line] before its first [<]. *)
Definition before_first_lt (line lead : string) : Prop :=
  Py.find "<" lead = None ∧ ∃ rest, line = lead +:+ String "<"%char rest.


(** The version line the patcher writes after the indentation [lead]. *)
Definition replacement (lead versionString : string) : string :=
  lead +:+ "<AssemblyVersion>" +:+ versionString +:+ "</AssemblyVersion>" +:+ nl.

(** The line terminator a line ends with: CR LF, LF, CR, or none. *)
Fixpoint terminator (line : string) : string :=
  match line with
  | EmptyString => EmptyString
  | String c rest =>
      match rest with
      | EmptyString =>
          if Ascii.eqb c "010" || Ascii.eqb c "013" then line else EmptyString
      | String d EmptyString =>
          if Ascii.eqb c "013" && Ascii.eqb d "010" then line else terminator rest
      | _ => terminator rest
      end
  end.

(** A line that ends with its newline and has no other. *)
Definition complete (line : string) : Prop :=
  ∃ body, line = body +:+ nl ∧ Py.contains nl body = false.

(** Text without newline at the end of a file. *)
Definition dangling (line : string) : Prop :=
  line ≠ "" ∧ Py.contains nl line = false.

(** The lines of a text: complete ones, and possibly a dangling last one. *)
Fixpoint lines_ok (text : list string) : Prop :=
  match text with
  | [] => True
  | line :: rest =>
      match rest with
      | [] => complete line ∨ dangling line
      | _ => complete line ∧ lines_ok rest
      end
  end.

(** The four paths a cleaning pass looks at: two project directories, each
    with [bin] and [obj]. *)
Definition clean_targets (e : Env) : list string :=
  d ← [colorSelectorDir e; colorSelectorStandaloneDir e];
  sub ← ["bin"; "obj"];
  [d +:+ "\" +:+ sub].

(** One cleaning pass in the words of the specification: for each target,
    if it is a directory, remove it. *)
Fixpoint clean_pass (targets : list string) : M unit :=
  match targets with
  | [] => mret ()
  | p :: ps => (b ← isdir p; when b (rmtree p)) ;; clean_pass ps
  end.

(** What a pass that meets no refusal does, read off the file system it
    starts from: the events it leaves and the file system it leaves. *)
Definition pass_events (targets : list string) (s : FS) : list Event :=
  p ← targets;
  if bool_decide (p ∈ dirs s) then [EIsdir p; ERmtree p] else [EIsdir p].

Definition pass_fs (targets : list string) (s : FS) : FS :=
  foldl (λ s p, if bool_decide (p ∈ dirs s) then without_tree p s else s)
        s targets.

(** No target lies at or beneath an earlier one, so that removing one tree
    leaves the later targets as they are. *)
Fixpoint apart (targets : list string) : Prop :=
  match targets with
  | [] => True
  | p :: ps => Forall (λ q, within p q = false) ps ∧ apart ps
  end.

(** The events of a cleaning pass. *)
Definition cleaning (ev : Event) : bool :=
  match ev with
  | EIsdir _ | ERmtree _ => true
  | _ => false
  end.

(** The events of the patching stage. *)
Definition patching (ev : Event) : bool :=
  match ev with
  | EPrint _ | ERead _ | EWrite _ _ => true
  | _ => false
  end.

(** The run stops at the version check: the message, an exit, and nothing
    else. *)
Definition version_rejected (e : Env) (w : World) : Prop :=
  main e w = (Exited, emit [EPrint version_error] w).

(** All that [m] adds to the log, from whatever world it starts, are
    events with the property [P]. *)
Definition emits {A} (P : Event → Prop) (m : M A) : Prop :=
  ∀ w, ∃ evs, log (m w).2 = log w ++ evs ∧ Forall P evs.

(** Two path components joined by a separator. *)
Definition joined (sep a b : string) : string := a +:+ sep +:+ b.

(** The number of occurrences of a character in a string. *)
Fixpoint count_char (c : ascii) (s : string) : nat :=
  match s with
  | EmptyString => 0
  | String d s' => (if Ascii.eqb d c then 1 else 0) + count_char c s'
  end.

(** The same start of the script with other arguments. *)
Definition with_args (arguments : list string) (e : Env) : Env :=
  {| argv0 := argv0 e;
     args := arguments;
     currentDirectory := currentDirectory e;
     currentDirectoryName := currentDirectoryName e;
     os_sep := os_sep e;
     during_sleep := during_sleep e |}.

(** The messages a log shows on the console. *)
Definition printed (evs : list Event) : list string :=
  omap (λ ev, match ev with EPrint msg => Some msg | _ => None end) evs.

(** The files a log shows as written. *)
Definition written (evs : list Event) : list string :=
  omap (λ ev, match ev with EWrite file _ => Some file | _ => None end) evs.

(** [content'] is what the patcher makes of [content]: the same text when
    no line carries the tag, and otherwise the text with the first line
    equal to the last tagged line replaced. *)
Definition patches (versionString content content' : string) : Prop :=
  (Forall (λ x, ¬ has_tag x) (Py.readlines content) ∧ content' = content)
  ∨ ∃ line i lead,
      last (filter has_tag (Py.readlines content)) = Some line
      ∧ Py.list_index line (Py.readlines content) = Some i
      ∧ before_first_lt line lead
      ∧ content' = Py.writelines
                     (<[i := replacement lead versionString]> (Py.readlines content)).

(** ** The text layer between the script and the characters of a file *)

(** The carriage return, and the two characters that end a line on a host
    of the Windows family. *)
Definition cr : string := String "013"%char "".
Definition crlf : string := String "013"%char nl.

(** What [open(file, 'r')] makes of the characters of a file before the
    script sees them: a carriage return followed by a newline, and a
    carriage return alone, are read as one newline. *)
Fixpoint universal_newlines (raw : string) : string :=
  match raw with
  | EmptyString => EmptyString
  | String c rest =>
      if Ascii.eqb c "013" then
        String "010"
          match rest with
          | EmptyString => EmptyString
          | String d rest' =>
              if Ascii.eqb d "010" then universal_newlines rest'
              else universal_newlines rest
          end
      else String c (universal_newlines rest)
  end.

(** What [open(file, 'w')] puts into the file for the text the script
    writes: every newline becomes the line separator of the host,
    [os.linesep]. *)
Fixpoint to_linesep (linesep text : string) : string :=
  match text with
  | EmptyString => EmptyString
  | String c rest =>
      if Ascii.eqb c "010" then linesep +:+ to_linesep linesep rest
      else String c (to_linesep linesep rest)
  end.

(** The lines of a file as they are in the file, each with the terminator
    it has there: CR LF, LF, CR, or none for a last line. *)
Fixpoint raw_lines (raw : string) : list string :=
  match raw with
  | EmptyString => []
  | String c rest =>
      if Ascii.eqb c "010" then nl :: raw_lines rest
      else if Ascii.eqb c "013" then
        match rest with
        | EmptyString => [cr]
        | String d rest' =>
            if Ascii.eqb d "010" then crlf :: raw_lines rest'
            else cr :: raw_lines rest
        end
      else match raw_lines rest with
           | [] => [String c EmptyString]
           | l :: ls => String c l :: ls
           end
  end.

(** A line of the file after the script has read it and written it back
    on a host with the given line separator. *)
Definition rewritten (linesep line : string) : string :=
  to_linesep linesep (universal_newlines line).

(** Text without newline and without carriage return. *)
Definition plain (s : string) : Prop :=
  Py.contains nl s = false ∧ Py.contains cr s = false.

(** A line of a file: plain text and one of the terminators, or none. *)
Definition raw_line (line : string) : Prop :=
  ∃ body t, line = body +:+ t ∧ plain body
            ∧ (t = "" ∨ t = nl ∨ t = cr ∨ t = crlf).

(** ** Sample inputs *)

Definition sample_project : string :=
  "<Project>" +:+ nl +:+
  "    <AssemblyVersion>1.0.0</AssemblyVersion>" +:+ nl +:+
  "</Project>" +:+ nl.

Definition sample_two_tags : string :=
  "  <AssemblyVersion>1.0.0</AssemblyVersion>" +:+ nl +:+
  "<Other/>" +:+ nl +:+
  "      <AssemblyVersion>1.5.0</AssemblyVersion>" +:+ nl.

Definition sample_duplicate : string :=
  "<AssemblyVersion>1.0.0</AssemblyVersion>" +:+ nl +:+
  "<Other/>" +:+ nl +:+
  "<AssemblyVersion>1.0.0</AssemblyVersion>" +:+ nl.

Definition sample_no_tag : string :=
  "<Project>" +:+ nl +:+ "</Project>" +:+ nl.

Definition sample_unterminated : string :=
  "<Project>" +:+ nl +:+ "  <AssemblyVersion>1.0.0</AssemblyVersion>".

(** A project file with the line ends of the Windows family. *)
Definition sample_crlf : string :=
  "<Project>" +:+ crlf +:+
  "  <AssemblyVersion>1.0.0</AssemblyVersion>" +:+ crlf +:+
  "</Project>" +:+ crlf.

(** A checkout with build output in the first project and none in the
    second. *)
Definition sample_checkout : World :=
  {| fs := {| dirs := {[ "C:\work\Color Selector\ColorSelector";
                         "C:\work\Color Selector\ColorSelector\bin";
                         "C:\work\Color Selector\ColorSelector\bin\Debug";
                         "C:\work\Color Selector\ColorSelector\obj";
                         "C:\work\Color Selector\ColorSelectorTestApp" ]};
              files := {[ "C:\work\Color Selector\ColorSelector\ColorSelector.csproj"
                            := sample_project;
                          "C:\work\Color Selector\ColorSelector\bin\Debug\ColorSelector.dll"
                            := "MZ";
                          "C:\work\Color Selector\ColorSelectorTestApp\ColorSelectorStandalone.csproj"
                            := sample_no_tag ]};
              locked := ∅ |};
     log := [] |}.

(** A checkout in which the second project file is missing. *)
Definition sample_half_checkout : World :=
  {| fs := {| dirs := {[ "C:\work\Color Selector\ColorSelector";
                         "C:\work\Color Selector\ColorSelector\obj" ]};
              files := {[ "C:\work\Color Selector\ColorSelector\ColorSelector.csproj"
                            := sample_project ]};
              locked := ∅ |};
     log := [] |}.

(** The same world with the given paths locked by another program. *)
Definition with_locked (paths : gset string) (w : World) : World :=
  {| fs := {| dirs := dirs (fs w); files := files (fs w); locked := paths |};
     log := log w |}.

(** A world with one text file, no directory and an empty log. *)
Definition one_file (file content : string) : World :=
  {| fs := {| dirs := ∅; files := {[ file := content ]}; locked := ∅ |};
     log := [] |}.

(** The script started as [buildScript.py] with the given arguments, in a
    directory of the given name under [C:\work], on a host whose separator
    is [sep], with nothing else touching the file system. *)
Definition sample_env (arguments : list string) (name sep : string) : Env :=
  {| argv0 := "buildScript.py";
     args := arguments;
     currentDirectory := "C:\work\" +:+ name;
     currentDirectoryName := name;
     os_sep := sep;
     during_sleep := λ s, s |}.

(** ** The built-ins on small inputs *)

Example ex_find_tag : Py.find "<A>" "  <A>1</A>" = Some 2.
Proof. reflexivity. Qed.

Example ex_split_version : Py.split "." "2.1.3" = ["2"; "1"; "3"].
Proof. reflexivity. Qed.

Example ex_split_empty : Py.split "." "" = [""].
Proof. reflexivity. Qed.

Example ex_readlines_two :
  Py.readlines ("ab" +:+ nl +:+ "cd") = ["ab" +:+ nl; "cd"].
Proof. reflexivity. Qed.

Example ex_format_path : Py.format "{0}\{1}" ["C:\r"; "bin"] = "C:\r\bin".
Proof. reflexivity. Qed.


(** ** Strings *)

Section strings.
Implicit Types s t u line lead : string.

Lemma append_cons c s t : String c s +:+ t = String c (s +:+ t).
Proof. done. Qed.

Lemma append_nil_r s : s +:+ "" = s.
Proof. induction s as [|c s IH]; [done|]. by rewrite append_cons, IH. Qed.

Lemma append_assoc s t u : (s +:+ t) +:+ u = s +:+ t +:+ u.
Proof. induction s as [|c s IH]; [done|]. by rewrite !append_cons, IH. Qed.

Lemma prefix_append s t u : String.prefix (s +:+ t) (s +:+ u) = String.prefix t u.
Proof.
  induction s as [|c s IH]; [done|].
  rewrite !append_cons. cbn. by destruct (ascii_dec c c).
Qed.

Lemma prefix_nil s : String.prefix "" s = true.
Proof. by destruct s. Qed.

Lemma prefix_cons_inv c s t :
  String.prefix (String c s) t = true → ∃ t', t = String c t' ∧ String.prefix s t' = true.
Proof.
  destruct t as [|d t]; [done|]. cbn.
  destruct (ascii_dec c d) as [->|]; [|done]. eauto.
Qed.

(** Whether a string starts with a given character depends on its first
    character only. *)
Lemma prefix_char a c s t :
  String.prefix (String a "") (String c s) = String.prefix (String a "") (String c t).
Proof. cbn. destruct (ascii_dec a c); [|done]. by rewrite !prefix_nil. Qed.

Lemma format_path s t : Py.format "{0}\{1}" [s; t] = s +:+ "\" +:+ t.
Proof. cbn. by rewrite append_nil_r. Qed.

Lemma format_replacement lead v :
  Py.format ("{0}<AssemblyVersion>{1}</AssemblyVersion>" +:+ nl) [lead; v]
  = replacement lead v.
Proof. reflexivity. Qed.

Lemma format_warning file :
  Py.format "Warning: could not find AssemblyVersion line in {0}" [file]
  = "Warning: could not find AssemblyVersion line in " +:+ file.
Proof. cbn. by rewrite append_nil_r. Qed.

(** A string that starts with the tag starts with [<]. *)
Lemma prefix_tag_lt s : String.prefix tag s = true → String.prefix "<" s = true.
Proof.
  unfold tag. intros (t & -> & _)%prefix_cons_inv. cbn.
  apply prefix_nil.
Qed.

Lemma find_Some_cons sub c s n :
  Py.find sub (String c s) = Some n →
  (String.prefix sub (String c s) = true ∧ n = 0)
  ∨ (String.prefix sub (String c s) = false ∧ ∃ n', Py.find sub s = Some n' ∧ n = S n').
Proof.
  cbn [Py.find]. destruct (String.prefix sub (String c s)).
  - intros [= <-]. by left.
  - destruct (Py.find sub s) as [n'|]; [|done]. intros [= <-]. right. eauto.
Qed.

(** Where the tag occurs, a [<] occurs, at the same place or before. *)
Lemma find_tag_lt line n :
  Py.find tag line = Some n → ∃ m, Py.find "<" line = Some m ∧ m ≤ n.
Proof.
  revert n. induction line as [|c s IH]; intros n.
  - done.
  - intros [[Hp ->]|(Hp & n' & Hn' & ->)]%find_Some_cons.
    + exists 0. split; [|done]. cbn [Py.find]. by rewrite (prefix_tag_lt _ Hp).
    + destruct (IH _ Hn') as (m & Hm & ?).
      cbn [Py.find]. destruct (String.prefix "<" (String c s)).
      * exists 0. split; [done|lia].
      * exists (S m). rewrite Hm. split; [done|lia].
Qed.

(** The slice up to the first [<] is the text before the first [<]. *)
Lemma find_slice line n :
  Py.find "<" line = Some n → before_first_lt line (Py.slice_to n line).
Proof.
  revert n. induction line as [|c s IH]; intros n.
  - done.
  - intros [[Hp ->]|(Hp & n' & Hn' & ->)]%find_Some_cons.
    + apply prefix_cons_inv in Hp as (t & [= -> <-] & _).
      split; [done|]. by exists s.
    + destruct (IH _ Hn') as (Hnone & rest & Hrest).
      split.
      * cbn [Py.slice_to Py.find].
        rewrite (prefix_char _ _ _ s), Hp.
        by rewrite Hnone.
      * exists rest. cbn [Py.slice_to]. rewrite append_cons. by f_equal.
Qed.

(** The text before the first [<] is determined by the line. *)
Lemma before_first_lt_find line lead :
  before_first_lt line lead → Py.find "<" line = Some (String.length lead).
Proof.
  intros (Hnone & rest & ->). induction lead as [|c s IH].
  - change ("" +:+ String "<" rest) with (String "<" rest). cbn. by rewrite prefix_nil.
  - rewrite append_cons. cbn [Py.find String.length].
    revert Hnone. cbn [Py.find].
    destruct (String.prefix "<" (String c s)) eqn:Hp; [done|].
    destruct (Py.find "<" s) eqn:Hs; [done|]. intros _.
    rewrite (prefix_char _ _ _ s), Hp.
    by rewrite IH.
Qed.

Lemma before_first_lt_unique line lead lead' :
  before_first_lt line lead → before_first_lt line lead' → lead = lead'.
Proof.
  intros H1 H2.
  pose proof (before_first_lt_find _ _ H1) as E1.
  pose proof (before_first_lt_find _ _ H2) as E2.
  destruct H1 as (_ & r1 & ->), H2 as (_ & r2 & Heq).
  rewrite E1 in E2. injection E2 as Hlen.
  clear -Heq Hlen. revert lead' Heq Hlen.
  induction lead as [|c s IH]; intros [|d t] Heq Hlen; try done.
  rewrite !append_cons in Heq. injection Heq as -> Heq.
  f_equal. apply IH; [done|]. by injection Hlen.
Qed.


Lemma has_tag_nonempty line : has_tag line → line ≠ "".
Proof. intros H E. by subst. Qed.

Lemma has_tag_find line : has_tag line ↔ ∃ n, Py.find tag line = Some n.
Proof.
  unfold has_tag, Py.contains. destruct (Py.find tag line) as [n|].
  - split; eauto.
  - split; [done|]. by intros [n ?].
Qed.

(** The replacement line ends with a newline and with nothing else of a
    line terminator. *)
Lemma terminator_replacement lead v : terminator (replacement lead v) = nl.
Proof.
  unfold replacement.
  change ("</AssemblyVersion>" +:+ nl) with ("</AssemblyVersion" +:+ String ">" nl).
  rewrite <-!append_assoc.
  generalize (((lead +:+ "<AssemblyVersion>") +:+ v) +:+ "</AssemblyVersion").
  intros s. induction s as [|c s IH]; [done|].
  rewrite append_cons. cbn [terminator].
  destruct s as [|d [|d' s]]; [done|by destruct (Ascii.eqb c "013")|done].
Qed.

End strings.

(** ** Lines *)

Section lines.
Implicit Types s line x y : string.
Implicit Types text l : list string.

(** Writing back what was read gives the text that was read. *)
Lemma writelines_cons line text :
  Py.writelines (line :: text) = line +:+ Py.writelines text.
Proof. done. Qed.

Lemma writelines_readlines s : Py.writelines (Py.readlines s) = s.
Proof.
  induction s as [|c s IH]; [done|].
  cbn [Py.readlines]. destruct (Ascii.eqb c "010").
  - by rewrite writelines_cons, append_cons, IH.
  - destruct (Py.readlines s) as [|l ls].
    + by rewrite <-IH.
    + rewrite writelines_cons in *. by rewrite append_cons, IH.
Qed.

Lemma assemblyVersionLine_snoc text line :
  assemblyVersionLine (text ++ [line])
  = if Py.contains tag line then line else assemblyVersionLine text.
Proof. unfold assemblyVersionLine. by rewrite foldl_app. Qed.

(** The loop ends with the last line that carries the tag, or with the
    empty string when there is none. *)
Lemma assemblyVersionLine_last text :
  assemblyVersionLine text = default "" (last (filter has_tag text)).
Proof.
  induction text as [|line text IH] using rev_ind; [done|].
  rewrite assemblyVersionLine_snoc, filter_app.
  unfold has_tag at 2. destruct (Py.contains tag line) eqn:E.
  - rewrite filter_cons_True, filter_nil by done. by rewrite last_snoc.
  - rewrite filter_cons_False, filter_nil, app_nil_r by (by rewrite E). done.
Qed.

Lemma last_filter_has_tag text line :
  last (filter has_tag text) = Some line → has_tag line ∧ line ∈ text.
Proof.
  intros H%last_Some_elem_of. by apply list_elem_of_filter in H.
Qed.

(** [index], [remove] and [insert] together replace the first element
    equal to [x]. *)
Lemma index_remove_insert x y l :
  x ∈ l →
  ∃ i l', Py.list_index x l = Some i ∧ l !! i = Some x
          ∧ (∀ j, j < i → l !! j ≠ Some x)
          ∧ Py.list_remove x l = Some l'
          ∧ Py.list_insert_at i y l' = <[i:=y]> l.
Proof.
  induction l as [|z l IH]; [by intros ?%elem_of_nil|].
  intros Hin. cbn [Py.list_index Py.list_remove].
  destruct (decide (z = x)) as [->|Hne].
  - exists 0, l. repeat split; try done. intros j ?. lia.
  - apply elem_of_cons in Hin as [->|Hin]; [done|].
    destruct (IH Hin) as (i & l' & -> & Hi & Hfirst & -> & Hins).
    exists (S i), (z :: l'). repeat split; try done.
    + intros [|j] ?; cbn; [congruence|]. apply Hfirst. lia.
    + unfold Py.list_insert_at in *. cbn. by rewrite Hins.
Qed.

End lines.

(** ** Newlines *)

Section newlines.
Implicit Types s t line body lead : string.
Implicit Types text pre post : list string.

Lemma contains_nl_cons c s :
  Py.contains nl (String c s) = Ascii.eqb c "010" || Py.contains nl s.
Proof.
  unfold Py.contains, nl. cbn [Py.find String.prefix].
  destruct (ascii_dec "010" c) as [<-|Hne].
  - by rewrite prefix_nil.
  - rewrite (proj2 (Ascii.eqb_neq c "010")) by done. cbn.
    by destruct (Py.find _ s).
Qed.

Lemma contains_nl_app s t :
  Py.contains nl (s +:+ t) = Py.contains nl s || Py.contains nl t.
Proof.
  induction s as [|c s IH]; [done|].
  by rewrite append_cons, !contains_nl_cons, IH, orb_assoc.
Qed.

Lemma readlines_complete body s :
  Py.contains nl body = false →
  Py.readlines ((body +:+ nl) +:+ s) = (body +:+ nl) :: Py.readlines s.
Proof.
  induction body as [|c b IH]; [done|].
  rewrite contains_nl_cons. intros [Hc Hb]%orb_false_elim.
  rewrite !append_cons. cbn [Py.readlines]. rewrite Hc. by rewrite IH.
Qed.

Lemma readlines_dangling line : dangling line → Py.readlines line = [line].
Proof.
  intros [Hne Hnl]. induction line as [|c s IH]; [done|].
  rewrite contains_nl_cons in Hnl. apply orb_false_elim in Hnl as [Hc Hs].
  cbn [Py.readlines]. rewrite Hc. destruct s as [|d s]; [done|].
  by rewrite IH.
Qed.

(** Reading back what was written gives the lines that were written. *)
Lemma readlines_writelines text :
  lines_ok text → Py.readlines (Py.writelines text) = text.
Proof.
  induction text as [|line rest IH]; [done|].
  cbn [lines_ok]. rewrite writelines_cons. destruct rest as [|line' rest].
  - intros [(body & -> & Hbody)|Hd].
    + by rewrite readlines_complete.
    + cbn. rewrite append_nil_r. by apply readlines_dangling.
  - intros [(body & -> & Hbody) Hok]. rewrite readlines_complete by done.
    by rewrite IH.
Qed.

(** What [readlines] returns are lines. *)
Lemma readlines_ok s : lines_ok (Py.readlines s).
Proof.
  induction s as [|c s IH]; [done|].
  cbn [Py.readlines]. destruct (Ascii.eqb c "010") eqn:Hc.
  - apply Ascii.eqb_eq in Hc as ->.
    assert (complete (String "010" "")) as Hnl by by exists "".
    cbn [lines_ok]. destruct (Py.readlines s); [by left|done].
  - destruct (Py.readlines s) as [|line rest].
    + right. split; [done|]. by rewrite contains_nl_cons, Hc.
    + cbn [lines_ok] in *. 
      assert (complete line → complete (String c line)) as Hcomplete.
      { intros (body & -> & Hbody). exists (String c body).
        split; [done|]. by rewrite contains_nl_cons, Hc. }
      destruct rest as [|line' rest].
      * destruct IH as [?|[Hne Hnl]]; [left; auto|right].
        split; [done|]. by rewrite contains_nl_cons, Hc.
      * destruct IH as [? ?]. auto.
Qed.

Lemma lines_ok_elem text line :
  lines_ok text → line ∈ text → complete line ∨ dangling line.
Proof.
  induction text as [|l rest IH]; [by intros _ ?%elem_of_nil|].
  cbn [lines_ok]. destruct rest as [|l' rest].
  - intros H ->%list_elem_of_singleton. done.
  - intros [Hl Hok] [->|Hin]%elem_of_cons; [by left|]. by apply IH.
Qed.

Lemma lines_ok_cons line rest :
  rest ≠ [] → lines_ok (line :: rest) ↔ complete line ∧ lines_ok rest.
Proof. by destruct rest. Qed.

Lemma lines_ok_app_cons pre line post :
  lines_ok (pre ++ line :: post) →
  Forall complete pre ∧ lines_ok (line :: post).
Proof.
  induction pre as [|l pre IH]; [done|].
  rewrite <-app_comm_cons, lines_ok_cons by by destruct pre.
  intros [Hl [? ?]%IH]. split; [by constructor|done].
Qed.

Lemma lines_ok_complete pre post :
  Forall complete pre → lines_ok post → lines_ok (pre ++ post).
Proof.
  induction 1 as [|l pre Hl Hpre IH]; [done|]. intros Hpost.
  rewrite <-app_comm_cons. destruct (decide (pre ++ post = [])) as [E|E].
  - rewrite E. by left.
  - apply lines_ok_cons; auto.
Qed.

(** A complete line in the place of a line leaves a text a text. *)
Lemma lines_ok_replace pre line post new :
  lines_ok (pre ++ line :: post) → complete new → lines_ok (pre ++ new :: post).
Proof.
  intros [Hpre Hok]%lines_ok_app_cons Hnew.
  apply lines_ok_complete; [done|].
  cbn [lines_ok] in *. destruct post; [by left|]. destruct Hok. auto.
Qed.

(** The text before the first [<] of a line has no newline. *)
Lemma before_first_lt_no_newline line lead :
  complete line ∨ dangling line → before_first_lt line lead →
  Py.contains nl lead = false.
Proof.
  intros Hline (_ & rest & ->). destruct Hline as [(body & Heq & Hbody)|[_ Hnl]].
  - revert body Heq Hbody. induction lead as [|c lead IH]; intros body Heq Hbody; [done|].
    destruct body as [|d body].
    { rewrite append_cons in Heq. injection Heq as _ Heq. by destruct lead. }
    rewrite !append_cons in Heq. injection Heq as -> Heq.
    rewrite contains_nl_cons in Hbody |- *.
    apply orb_false_elim in Hbody as [-> Hbody]. by eapply IH.
  - rewrite contains_nl_app in Hnl. by apply orb_false_elim in Hnl as [? _].
Qed.

Lemma replacement_complete lead versionString :
  Py.contains nl lead = false → Py.contains nl versionString = false →
  complete (replacement lead versionString).
Proof.
  intros Hlead Hv. unfold replacement.
  exists (lead +:+ "<AssemblyVersion>" +:+ versionString +:+ "</AssemblyVersion>").
  split; [by rewrite !append_assoc|].
  by rewrite !contains_nl_app, Hlead, Hv.
Qed.

End newlines.

(** ** The text layer *)

Example ex_universal_newlines :
  universal_newlines ("a" +:+ crlf +:+ "b" +:+ cr +:+ "c" +:+ nl +:+ "d")
  = "a" +:+ nl +:+ "b" +:+ nl +:+ "c" +:+ nl +:+ "d".
Proof. reflexivity. Qed.

Example ex_raw_lines :
  raw_lines ("a" +:+ crlf +:+ "b" +:+ cr +:+ "c" +:+ nl +:+ "d")
  = ["a" +:+ crlf; "b" +:+ cr; "c" +:+ nl; "d"].
Proof. reflexivity. Qed.

Example ex_to_linesep :
  to_linesep crlf ("a" +:+ nl +:+ "b") = "a" +:+ crlf +:+ "b".
Proof. reflexivity. Qed.

Section text_layer.
Implicit Types raw s t body line linesep : string.

Lemma contains_cr_cons c s :
  Py.contains cr (String c s) = Ascii.eqb c "013" || Py.contains cr s.
Proof.
  unfold Py.contains, cr. cbn [Py.find String.prefix].
  destruct (ascii_dec "013" c) as [<-|Hne].
  - by rewrite prefix_nil.
  - rewrite (proj2 (Ascii.eqb_neq c "013")) by done. cbn.
    by destruct (Py.find _ s).
Qed.

Lemma contains_cr_app s t :
  Py.contains cr (s +:+ t) = Py.contains cr s || Py.contains cr t.
Proof.
  induction s as [|c s IH]; [done|].
  by rewrite append_cons, !contains_cr_cons, IH, orb_assoc.
Qed.

Lemma plain_cons c s :
  plain (String c s) ↔ Ascii.eqb c "010" = false ∧ Ascii.eqb c "013" = false ∧ plain s.
Proof.
  unfold plain. rewrite contains_nl_cons, contains_cr_cons, !orb_false_iff. tauto.
Qed.

(** An induction that may step over two characters at once. *)
Lemma string_ind2 (P : string → Prop) :
  P "" → (∀ c, P (String c "")) →
  (∀ c d s, P s → P (String d s) → P (String c (String d s))) →
  ∀ s, P s.
Proof.
  intros H0 H1 H2 s. cut (P s ∧ ∀ c, P (String c s)); [tauto|].
  induction s as [|d s [IHs IHc]]; [by split|].
  split; [apply IHc|]. intros c. by apply H2.
Qed.

Lemma universal_newlines_cons c rest :
  universal_newlines (String c rest)
  = if Ascii.eqb c "013" then
      String "010"
        match rest with
        | EmptyString => EmptyString
        | String d rest' =>
            if Ascii.eqb d "010" then universal_newlines rest'
            else universal_newlines rest
        end
    else String c (universal_newlines rest).
Proof. done. Qed.

Lemma raw_lines_cons c rest :
  raw_lines (String c rest)
  = if Ascii.eqb c "010" then nl :: raw_lines rest
    else if Ascii.eqb c "013" then
      match rest with
      | EmptyString => [cr]
      | String d rest' =>
          if Ascii.eqb d "010" then crlf :: raw_lines rest'
          else cr :: raw_lines rest
      end
    else match raw_lines rest with
         | [] => [String c EmptyString]
         | l :: ls => String c l :: ls
         end.
Proof. done. Qed.

Lemma readlines_cons c s :
  Py.readlines (String c s)
  = if Ascii.eqb c "010" then String c EmptyString :: Py.readlines s
    else match Py.readlines s with
         | [] => [String c EmptyString]
         | l :: ls => String c l :: ls
         end.
Proof. done. Qed.

(** The lines the script reads are the lines of the file with every
    terminator read as a newline. *)
Lemma readlines_universal raw :
  Py.readlines (universal_newlines raw) = universal_newlines <$> raw_lines raw.
Proof.
  induction raw as [|c|c d s IHs IHd] using string_ind2.
  - done.
  - destruct (Ascii.eqb c "013") eqn:Hcr.
    + by apply Ascii.eqb_eq in Hcr as ->.
    + cbn [universal_newlines raw_lines]. rewrite Hcr. cbn [Py.readlines].
      destruct (Ascii.eqb c "010") eqn:Hlf.
      * by apply Ascii.eqb_eq in Hlf as ->.
      * cbn. by rewrite Hcr.
  - rewrite universal_newlines_cons, raw_lines_cons.
    destruct (Ascii.eqb c "013") eqn:Hcr.
    + apply Ascii.eqb_eq in Hcr as ->.
      change (Ascii.eqb "013" "010") with false. cbv iota.
      rewrite readlines_cons. change (Ascii.eqb "010" "010") with true. cbv iota.
      destruct (Ascii.eqb d "010"); [by rewrite IHs|by rewrite IHd].
    + rewrite readlines_cons, IHd.
      destruct (Ascii.eqb c "010") eqn:Hlf.
      * by apply Ascii.eqb_eq in Hlf as ->.
      * destruct (raw_lines (String d s)) as [|l ls]; cbn [fmap list_fmap];
          by rewrite universal_newlines_cons, Hcr.
Qed.

Lemma to_linesep_app linesep s t :
  to_linesep linesep (s +:+ t) = to_linesep linesep s +:+ to_linesep linesep t.
Proof.
  induction s as [|c s IH]; [done|].
  rewrite append_cons. cbn [to_linesep]. rewrite IH.
  destruct (Ascii.eqb c "010"); [by rewrite append_assoc|done].
Qed.

Lemma to_linesep_writelines linesep (text : list string) :
  to_linesep linesep (Py.writelines text)
  = Py.writelines (to_linesep linesep <$> text).
Proof.
  induction text as [|l text IH]; [done|].
  by rewrite fmap_cons, !writelines_cons, to_linesep_app, IH.
Qed.

Lemma to_linesep_plain linesep body :
  Py.contains nl body = false → to_linesep linesep body = body.
Proof.
  induction body as [|c s IH]; [done|].
  rewrite contains_nl_cons. intros [Hc Hs]%orb_false_elim.
  cbn [to_linesep]. by rewrite Hc, IH.
Qed.

Lemma universal_newlines_plain body t :
  plain body → (t = "" ∨ t = nl ∨ t = cr ∨ t = crlf) →
  universal_newlines (body +:+ t) = body +:+ (if decide (t = "") then "" else nl).
Proof.
  intros Hbody Ht. induction body as [|c s IH].
  - by destruct Ht as [->|[->|[->| ->]]].
  - apply plain_cons in Hbody as (_ & Hcr & Hs).
    rewrite !append_cons. cbn [universal_newlines]. by rewrite Hcr, IH.
Qed.

(** A line of the file as it is in the file after the rewrite: its text,
    and the line separator of the host if it had a terminator. *)
Lemma rewritten_raw_line linesep body t :
  plain body → (t = "" ∨ t = nl ∨ t = cr ∨ t = crlf) →
  rewritten linesep (body +:+ t)
  = body +:+ (if decide (t = "") then "" else linesep).
Proof.
  intros Hbody Ht. unfold rewritten.
  rewrite universal_newlines_plain, to_linesep_app by done.
  rewrite to_linesep_plain by apply Hbody.
  destruct (decide (t = "")); [done|]. cbn. by rewrite append_nil_r.
Qed.

Lemma terminator_raw_line body t :
  plain body → (t = "" ∨ t = nl ∨ t = cr ∨ t = crlf) →
  terminator (body +:+ t) = t.
Proof.
  intros Hbody Ht. induction body as [|c s IH].
  - by destruct Ht as [->|[->|[->| ->]]].
  - apply plain_cons in Hbody as (Hlf & Hcr & Hs). specialize (IH Hs).
    rewrite append_cons. cbn [terminator].
    destruct (s +:+ t) as [|d [|d' r]] eqn:E.
    + rewrite Hlf, Hcr. cbn. destruct s; [|done].
      by destruct Ht as [->|[->|[->| ->]]].
    + by rewrite Hcr.
    + done.
Qed.

(** What [raw_lines] returns are lines. *)
Lemma raw_lines_shape raw : Forall raw_line (raw_lines raw).
Proof.
  assert (raw_line nl) as Hnl by (exists "", nl; by repeat split; auto).
  assert (raw_line cr) as Hcr by (exists "", cr; by repeat split; auto).
  assert (raw_line crlf) as Hcrlf by (exists "", crlf; by repeat split; auto).
  assert (∀ c l, Ascii.eqb c "010" = false → Ascii.eqb c "013" = false →
                 raw_line l → raw_line (String c l)) as Hcons.
  { intros c l Hl Hc (body & t & -> & Hbody & Ht).
    exists (String c body), t. split; [done|]. split; [|done].
    by apply plain_cons. }
  assert (∀ c, Ascii.eqb c "010" = false → Ascii.eqb c "013" = false →
               raw_line (String c "")) as Hone.
  { intros c Hl Hc. exists (String c ""), "". split; [done|].
    split; [by apply plain_cons|by left]. }
  induction raw as [|c|c d s IHs IHd] using string_ind2.
  - constructor.
  - rewrite raw_lines_cons. cbn [raw_lines].
    destruct (Ascii.eqb c "010") eqn:Hlf; [by constructor|].
    destruct (Ascii.eqb c "013") eqn:Hc; constructor; auto.
  - rewrite raw_lines_cons.
    destruct (Ascii.eqb c "010") eqn:Hlf; [by constructor|].
    destruct (Ascii.eqb c "013") eqn:Hc.
    + destruct (Ascii.eqb d "010"); by constructor.
    + destruct (raw_lines (String d s)) as [|l ls].
      * constructor; auto.
      * apply Forall_cons in IHd as [Hl Hls]. constructor; auto.
Qed.

(** After the rewrite a line that had a terminator ends with the line
    separator of the host; it is the line it was exactly when it ended
    with that separator already, or had no terminator. *)
Lemma rewritten_terminator linesep line :
  linesep = nl ∨ linesep = crlf → raw_line line →
  (terminator line = linesep ∨ terminator line = "" → rewritten linesep line = line)
  ∧ (terminator line ≠ "" → terminator (rewritten linesep line) = linesep)
  ∧ (terminator line = "" → terminator (rewritten linesep line) = "").
Proof.
  intros Hsep (body & t & -> & Hbody & Ht).
  rewrite terminator_raw_line, rewritten_raw_line by done.
  split; [|split].
  - intros [-> | ->]; [|by rewrite decide_True].
    rewrite decide_False; [done|]. by destruct Hsep as [->| ->].
  - intros Hne. rewrite decide_False by done.
    apply terminator_raw_line; [done|]. destruct Hsep; auto.
  - intros ->. rewrite decide_True by done. by apply terminator_raw_line; auto.
Qed.

(** The replacement ends, in the file, with the line separator of the
    host. *)
Lemma terminator_after_gt s linesep :
  linesep = nl ∨ linesep = crlf → terminator (s +:+ String ">" linesep) = linesep.
Proof.
  intros Hsep. induction s as [|c s IH].
  - by destruct Hsep as [->| ->].
  - rewrite append_cons. cbn [terminator].
    destruct (s +:+ String ">" linesep) as [|d [|d' r]] eqn:E; [by destruct s|..|done].
    destruct s as [|a [|a' s]]; [|by destruct Hsep as [->| ->]|done].
    by destruct Hsep as [->| ->].
Qed.

Lemma to_linesep_replacement linesep lead versionString :
  ∃ s, to_linesep linesep (replacement lead versionString)
       = s +:+ String ">" linesep.
Proof.
  unfold replacement.
  change ("</AssemblyVersion>" +:+ nl) with ("</AssemblyVersion" +:+ String ">" nl).
  rewrite <-!append_assoc.
  eexists. rewrite to_linesep_app. f_equal. cbn. by rewrite append_nil_r.
Qed.

(** Text without carriage return comes back from the file as it was
    written, on a host of either family. *)
Lemma universal_newlines_to_linesep linesep t :
  linesep = nl ∨ linesep = crlf → Py.contains cr t = false →
  universal_newlines (to_linesep linesep t) = t.
Proof.
  intros Hsep. induction t as [|c s IH]; [done|].
  rewrite contains_cr_cons. intros [Hc Hs]%orb_false_elim.
  cbn [to_linesep]. destruct (Ascii.eqb c "010") eqn:Hlf.
  - apply Ascii.eqb_eq in Hlf as ->. destruct Hsep as [->| ->].
    + change (nl +:+ to_linesep nl s) with (String "010" (to_linesep nl s)).
      rewrite universal_newlines_cons.
      change (Ascii.eqb "010" "013") with false. cbv iota. by rewrite IH.
    + change (crlf +:+ to_linesep crlf s)
        with (String "013" (String "010" (to_linesep crlf s))).
      rewrite universal_newlines_cons.
      change (Ascii.eqb "013" "013") with true.
      change (Ascii.eqb "010" "010") with true. cbv iota. by rewrite IH.
  - rewrite universal_newlines_cons. by rewrite Hc, IH.
Qed.

Lemma universal_newlines_cr_free raw :
  Py.contains cr (universal_newlines raw) = false.
Proof.
  induction raw as [|c|c d s IHs IHd] using string_ind2.
  - done.
  - cbn. destruct (Ascii.eqb c "013") eqn:Hc; [done|].
    by rewrite contains_cr_cons, Hc.
  - cbn [universal_newlines]. destruct (Ascii.eqb c "013") eqn:Hc.
    + rewrite contains_cr_cons. cbn [Ascii.eqb Bool.eqb andb orb].
      by destruct (Ascii.eqb d "010").
    + by rewrite contains_cr_cons, Hc.
Qed.

End text_layer.

(** ** Running the pieces of the script *)

Section running.
Context {A B : Type}.
Implicit Types (m : M A) (k : A → M B) (w : World).

Lemma bind_Done m k w a w' : m w = (Done a, w') → (m ≫= k) w = k a w'.
Proof. unfold mbind, M_bind. by intros ->. Qed.

Lemma bind_Exited m k w w' : m w = (Exited, w') → (m ≫= k) w = (Exited, w').
Proof. unfold mbind, M_bind. by intros ->. Qed.

Lemma bind_Raised m k w exn w' :
  m w = (Raised exn, w') → (m ≫= k) w = (Raised exn, w').
Proof. unfold mbind, M_bind. by intros ->. Qed.

End running.

Lemma emit_emit evs evs' w : emit evs' (emit evs w) = emit (evs ++ evs') w.
Proof. unfold emit. cbn. by rewrite app_assoc. Qed.

Lemma emit_nil w : emit [] w = w.
Proof. destruct w. unfold emit. cbn. by rewrite app_nil_r. Qed.

(** ** The patcher on one file *)

(** No line carries the tag: a warning, and the file is not written. *)
Lemma Update_no_tag versionString file w content :
  files (fs w) !! file = Some content →
  filter has_tag (Py.readlines content) = [] →
  UpdateCsprojAssemblyVersion versionString file w
  = (Done (), emit [ERead file;
                    EPrint ("Warning: could not find AssemblyVersion line in " +:+ file)] w).
Proof.
  intros Hfile Hnone. unfold UpdateCsprojAssemblyVersion.
  erewrite bind_Done; last by (unfold read_lines; rewrite Hfile).
  cbv beta zeta. rewrite assemblyVersionLine_last, Hnone.
  change (default "" (last [])) with "".
  rewrite decide_True by done. unfold print.
  by rewrite format_warning, emit_emit.
Qed.

(** Some line carries the tag: the first line equal to the last line that
    carries it gives way to the replacement, built on the text before the
    first [<] of that line, and the file is written. *)
Lemma Update_tag versionString file w content line :
  files (fs w) !! file = Some content →
  last (filter has_tag (Py.readlines content)) = Some line →
  ∃ i lead,
    Py.list_index line (Py.readlines content) = Some i
    ∧ before_first_lt line lead
    ∧ let text' := <[i := replacement lead versionString]> (Py.readlines content) in
      UpdateCsprojAssemblyVersion versionString file w
      = (Done (), {| fs := with_file file (Py.writelines text') (fs w);
                     log := log w ++ [ERead file; EWrite file (Py.writelines text')] |}).
Proof.
  intros Hfile Hlast.
  destruct (last_filter_has_tag _ _ Hlast) as [Htag Hin].
  apply has_tag_find in Htag as Hfind. destruct Hfind as [n Hn].
  destruct (find_tag_lt _ _ Hn) as (m & Hm & _).
  set (new := replacement (Py.slice_to m line) versionString).
  destruct (index_remove_insert line new _ Hin) as (i & l' & Hi & _ & _ & Hrm & Hins).
  exists i, (Py.slice_to m line). split; [done|]. split; [by apply find_slice|].
  cbn zeta. unfold UpdateCsprojAssemblyVersion.
  erewrite bind_Done; last by (unfold read_lines; rewrite Hfile).
  cbv beta zeta. rewrite assemblyVersionLine_last, Hlast.
  change (default "" (Some line)) with line.
  rewrite decide_False by by apply has_tag_nonempty.
  rewrite Hi, Hm, Hrm. cbn [or_raise].
  erewrite !bind_Done by reflexivity.
  rewrite format_replacement. fold new. rewrite Hins.
  unfold write_lines, emit. cbn [fs log]. by rewrite <-app_assoc.
Qed.

Lemma list_index_app_fresh x (pre post : list string) :
  x ∉ pre → Py.list_index x (pre ++ x :: post) = Some (length pre).
Proof.
  induction pre as [|y pre IH]; intros Hnot; cbn.
  - by rewrite decide_True.
  - apply not_elem_of_cons in Hnot as [? ?].
    rewrite decide_False by done. by rewrite IH.
Qed.

(** The same in terms of the lines around the one replaced: the lines
    before the first line equal to the selected one, and the lines after
    it, stay as they are. *)
Lemma Update_split versionString file w content line pre post :
  files (fs w) !! file = Some content →
  last (filter has_tag (Py.readlines content)) = Some line →
  Py.readlines content = pre ++ line :: post →
  line ∉ pre →
  ∃ lead,
    before_first_lt line lead
    ∧ let text' := pre ++ replacement lead versionString :: post in
      UpdateCsprojAssemblyVersion versionString file w
      = (Done (), {| fs := with_file file (Py.writelines text') (fs w);
                     log := log w ++ [ERead file; EWrite file (Py.writelines text')] |}).
Proof.
  intros Hfile Hlast Hsplit Hfresh.
  destruct (Update_tag versionString _ _ _ _ Hfile Hlast) as (i & lead & Hi & Hlead & Hrun).
  exists lead. split; [done|]. cbn zeta in *. rewrite Hrun.
  rewrite Hsplit in Hi |- *. rewrite list_index_app_fresh in Hi by done.
  injection Hi as <-.
  by rewrite insert_app_r_alt, Nat.sub_diag by done.
Qed.

(** Every list with an element splits at the first occurrence of it. *)
Lemma split_first (x : string) (l : list string) :
  x ∈ l → ∃ pre post, l = pre ++ x :: post ∧ x ∉ pre.
Proof.
  induction l as [|y l IH]; [by intros ?%elem_of_nil|].
  destruct (decide (y = x)) as [->|Hne].
  - intros _. exists [], l. split; [done|]. apply not_elem_of_nil.
  - intros [?|Hin]%elem_of_cons; [done|].
    destruct (IH Hin) as (pre & post & -> & Hfresh).
    exists (y :: pre), post. split; [done|].
    apply not_elem_of_cons. by split.
Qed.

Lemma filter_nil_Forall (l : list string) :
  filter has_tag l = [] ↔ Forall (λ x, ¬ has_tag x) l.
Proof.
  induction l as [|y l IH]; [by split|].
  destruct (decide (has_tag y)).
  - rewrite filter_cons_True by done. split; [done|]. by intros [? ?]%Forall_cons.
  - rewrite filter_cons_False by done. rewrite IH, Forall_cons.
    split; [by split|by intros [_ ?]].
Qed.

(** The lines after the first line that equals the last tagged line carry
    no tag, unless an earlier tagged line equals it too. *)
Lemma last_tag_split (pre post earlier : list string) line :
  filter has_tag (pre ++ line :: post) = earlier ++ [line] →
  line ∉ earlier →
  filter has_tag pre = earlier ∧ Forall (λ x, ¬ has_tag x) post.
Proof.
  intros Hfilter Hfresh.
  assert (has_tag line) as Htag.
  { assert (line ∈ filter has_tag (pre ++ line :: post)) as Hin
      by (rewrite Hfilter; set_solver).
    by apply list_elem_of_filter in Hin as [? _]. }
  rewrite filter_app, filter_cons_True in Hfilter by done.
  destruct (filter has_tag post) as [|z zs _] eqn:Hpost using rev_ind.
  - apply app_inj_tail in Hfilter as [-> _].
    split; [done|]. by apply filter_nil_Forall.
  - rewrite app_comm_cons, app_assoc in Hfilter.
    apply app_inj_tail in Hfilter as [<- ->].
    exfalso. apply Hfresh. set_solver.
Qed.

Lemma Update_readable versionString file w :
  is_Some (files (fs w) !! file) →
  (UpdateCsprojAssemblyVersion versionString file w).1 = Done ().
Proof.
  intros [content Hfile].
  destruct (last (filter has_tag (Py.readlines content))) as [line|] eqn:Hlast.
  - destruct (Update_tag versionString _ _ _ _ Hfile Hlast) as (i & lead & _ & _ & ->).
    done.
  - apply last_None in Hlast. by erewrite Update_no_tag.
Qed.

(** ** The claims about the patcher *)



(** The sample of the specification: four spaces of indentation, version
    [2.1.3]. *)
Example ex_patch_sample :
  (UpdateCsprojAssemblyVersion "2.1.3" "a.csproj"
     (one_file "a.csproj" sample_project)).2.(log)
  = [ERead "a.csproj";
     EWrite "a.csproj"
       ("<Project>" +:+ nl +:+
        "    <AssemblyVersion>2.1.3</AssemblyVersion>" +:+ nl +:+
        "</Project>" +:+ nl)].
Proof. vm_compute. reflexivity. Qed.

(** C3.  A file none of whose lines carries the tag: the patcher prints a
    warning that ends with the path of the file, writes nothing (the file
    system is the one it found), and returns normally, so that whatever
    follows it in the run is executed, from that same file system. *)
Theorem missing_tag_warns_and_continues versionString file w content :
  files (fs w) !! file = Some content →
  Forall (λ x, ¬ has_tag x) (Py.readlines content) →
  let warning := "Warning: could not find AssemblyVersion line in " +:+ file in
  let w' := emit [ERead file; EPrint warning] w in
  UpdateCsprojAssemblyVersion versionString file w = (Done (), w')
  ∧ fs w' = fs w
  ∧ files (fs w') !! file = Some content
  ∧ ∀ rest : M unit,
      (UpdateCsprojAssemblyVersion versionString file ;; rest) w = rest w'.
Proof.
  intros Hfile Hnone%filter_nil_Forall warning w'.
  pose proof (Update_no_tag versionString _ _ _ Hfile Hnone) as Hrun.
  split; [done|]. split; [done|]. split; [done|].
  intros rest. by erewrite bind_Done.
Qed.

Lemma missing_tag_warns_and_continues_witness :
  let w := one_file "a.csproj" sample_no_tag in
  let warning := "Warning: could not find AssemblyVersion line in a.csproj" in
  let w' := emit [ERead "a.csproj"; EPrint warning] w in
  files (fs w) !! "a.csproj" = Some sample_no_tag
  ∧ Forall (λ x, ¬ has_tag x) (Py.readlines sample_no_tag)
  ∧ UpdateCsprojAssemblyVersion "2.1.3" "a.csproj" w = (Done (), w')
  ∧ fs w' = fs w
  ∧ files (fs w') !! "a.csproj" = Some sample_no_tag
  ∧ ∀ rest : M unit,
      (UpdateCsprojAssemblyVersion "2.1.3" "a.csproj" ;; rest) w = rest w'.
Proof.
  intros w warning w'.
  assert (files (fs w) !! "a.csproj" = Some sample_no_tag) as Hfile
    by apply lookup_singleton_eq.
  assert (Forall (λ x, ¬ has_tag x) (Py.readlines sample_no_tag)) as Hnone
    by (repeat constructor; discriminate).
  split; [exact Hfile|]. split; [exact Hnone|].
  exact (missing_tag_warns_and_continues "2.1.3" "a.csproj" w sample_no_tag Hfile Hnone).
Defined.

(** C4.  A file with two or more lines that carry the tag: the replacement
    is built on the text before the first [<] of the last of them, whatever
    the indentation of the earlier ones.  It takes the place of the first
    line equal to that last line, which is that last line itself unless an
    earlier tagged line is equal to it. *)
Theorem last_tag_line_gives_indentation versionString file w content earlier line :
  files (fs w) !! file = Some content →
  filter has_tag (Py.readlines content) = earlier ++ [line] →
  earlier ≠ [] →
  ∃ pre post lead,
    Py.readlines content = pre ++ line :: post
    ∧ (line ∉ pre)
    ∧ before_first_lt line lead
    ∧ (line ∉ earlier →
       filter has_tag pre = earlier ∧ Forall (λ x, ¬ has_tag x) post)
    ∧ let text' := pre ++ replacement lead versionString :: post in
      UpdateCsprojAssemblyVersion versionString file w
      = (Done (), {| fs := with_file file (Py.writelines text') (fs w);
                     log := log w ++ [ERead file; EWrite file (Py.writelines text')] |}).
Proof.
  intros Hfile Htags _.
  assert (last (filter has_tag (Py.readlines content)) = Some line) as Hlast
    by (rewrite Htags; apply last_snoc).
  destruct (last_filter_has_tag _ _ Hlast) as [_ Hin].
  destruct (split_first _ _ Hin) as (pre & post & Hsplit & Hfresh).
  destruct (Update_split versionString _ _ _ _ _ _ Hfile Hlast Hsplit Hfresh)
    as (lead & Hlead & Hrun).
  exists pre, post, lead.
  split; [done|]. split; [done|]. split; [done|]. split; [|done].
  rewrite Hsplit in Htags. by apply last_tag_split.
Qed.

Lemma last_tag_line_gives_indentation_witness :
  let w := one_file "a.csproj" sample_two_tags in
  let first := "  <AssemblyVersion>1.0.0</AssemblyVersion>" +:+ nl in
  let line := "      <AssemblyVersion>1.5.0</AssemblyVersion>" +:+ nl in
  files (fs w) !! "a.csproj" = Some sample_two_tags
  ∧ filter has_tag (Py.readlines sample_two_tags) = [first] ++ [line]
  ∧ [first] ≠ []
  ∧ ∃ pre post lead,
      Py.readlines sample_two_tags = pre ++ line :: post
      ∧ (line ∉ pre)
      ∧ before_first_lt line lead
      ∧ (line ∉ [first] →
         filter has_tag pre = [first] ∧ Forall (λ x, ¬ has_tag x) post)
      ∧ let text' := pre ++ replacement lead "2.1.3" :: post in
        UpdateCsprojAssemblyVersion "2.1.3" "a.csproj" w
        = (Done (), {| fs := with_file "a.csproj" (Py.writelines text') (fs w);
                       log := log w ++ [ERead "a.csproj";
                                        EWrite "a.csproj" (Py.writelines text')] |}).
Proof.
  intros w first line.
  assert (files (fs w) !! "a.csproj" = Some sample_two_tags) as Hfile
    by apply lookup_singleton_eq.
  assert (filter has_tag (Py.readlines sample_two_tags) = [first] ++ [line]) as Htags
    by reflexivity.
  assert ([first] ≠ []) as Hne by discriminate.
  split; [exact Hfile|]. split; [exact Htags|]. split; [exact Hne|].
  exact (last_tag_line_gives_indentation "2.1.3" "a.csproj" w sample_two_tags
           [first] line Hfile Htags Hne).
Defined.

(** With two tagged lines of different indentation, the six spaces of the
    last one are used, and the first one stays. *)
Example ex_patch_two_tags :
  (UpdateCsprojAssemblyVersion "2.1.3" "a.csproj"
     (one_file "a.csproj" sample_two_tags)).2.(log)
  = [ERead "a.csproj";
     EWrite "a.csproj"
       ("  <AssemblyVersion>1.0.0</AssemblyVersion>" +:+ nl +:+
        "<Other/>" +:+ nl +:+
        "      <AssemblyVersion>2.1.3</AssemblyVersion>" +:+ nl)].
Proof. vm_compute. reflexivity. Qed.

(** C5.  An earlier line identical to the selected, last tagged line: the
    earlier line, the first one equal to the selected line, is the one
    removed, the replacement goes to its position, and the last occurrence
    stays in the file as it was. *)
Theorem earlier_identical_line_replaced versionString file w content line pre mid post :
  files (fs w) !! file = Some content →
  Py.readlines content = pre ++ line :: mid ++ line :: post →
  has_tag line →
  line ∉ pre →
  Forall (λ x, ¬ has_tag x) post →
  ∃ lead,
    before_first_lt line lead
    ∧ Py.list_index line (Py.readlines content) = Some (length pre)
    ∧ let text' := pre ++ replacement lead versionString :: mid ++ line :: post in
      UpdateCsprojAssemblyVersion versionString file w
      = (Done (), {| fs := with_file file (Py.writelines text') (fs w);
                     log := log w ++ [ERead file; EWrite file (Py.writelines text')] |}).
Proof.
  intros Hfile Hsplit Htag Hfresh Hpost%filter_nil_Forall.
  assert (last (filter has_tag (Py.readlines content)) = Some line) as Hlast.
  { rewrite Hsplit, filter_app, filter_cons_True, filter_app, filter_cons_True by done.
    rewrite Hpost, app_comm_cons, app_assoc. apply last_snoc. }
  destruct (Update_split versionString _ _ _ _ _ _ Hfile Hlast Hsplit Hfresh)
    as (lead & Hlead & Hrun).
  exists lead. split; [done|]. split; [|done].
  rewrite Hsplit. by apply list_index_app_fresh.
Qed.

Lemma earlier_identical_line_replaced_witness :
  let w := one_file "a.csproj" sample_duplicate in
  let line := "<AssemblyVersion>1.0.0</AssemblyVersion>" +:+ nl in
  let mid := ["<Other/>" +:+ nl] in
  files (fs w) !! "a.csproj" = Some sample_duplicate
  ∧ Py.readlines sample_duplicate = [] ++ line :: mid ++ line :: []
  ∧ has_tag line
  ∧ (line ∉ [])
  ∧ Forall (λ x, ¬ has_tag x) []
  ∧ ∃ lead,
      before_first_lt line lead
      ∧ Py.list_index line (Py.readlines sample_duplicate) = Some (length (@nil string))
      ∧ let text' := [] ++ replacement lead "2.1.3" :: mid ++ line :: [] in
        UpdateCsprojAssemblyVersion "2.1.3" "a.csproj" w
        = (Done (), {| fs := with_file "a.csproj" (Py.writelines text') (fs w);
                       log := log w ++ [ERead "a.csproj";
                                        EWrite "a.csproj" (Py.writelines text')] |}).
Proof.
  intros w line mid.
  assert (files (fs w) !! "a.csproj" = Some sample_duplicate) as Hfile
    by apply lookup_singleton_eq.
  assert (Py.readlines sample_duplicate = [] ++ line :: mid ++ line :: []) as Hsplit
    by reflexivity.
  assert (has_tag line) as Htag by reflexivity.
  assert (line ∉ []) as Hfresh by apply not_elem_of_nil.
  assert (Forall (λ x, ¬ has_tag x) []) as Hpost by constructor.
  split; [exact Hfile|]. split; [exact Hsplit|]. split; [exact Htag|].
  split; [exact Hfresh|]. split; [exact Hpost|].
  exact (earlier_identical_line_replaced "2.1.3" "a.csproj" w sample_duplicate
           line [] mid [] Hfile Hsplit Htag Hfresh Hpost).
Defined.

(** With the same tagged line twice, the first copy is the one rewritten. *)
Example ex_patch_duplicate :
  (UpdateCsprojAssemblyVersion "2.1.3" "a.csproj"
     (one_file "a.csproj" sample_duplicate)).2.(log)
  = [ERead "a.csproj";
     EWrite "a.csproj"
       ("<AssemblyVersion>2.1.3</AssemblyVersion>" +:+ nl +:+
        "<Other/>" +:+ nl +:+
        "<AssemblyVersion>1.0.0</AssemblyVersion>" +:+ nl)].
Proof. vm_compute. reflexivity. Qed.

(** C8, as the code has it.  A file is patched; [raw] are its characters
    before, the script reads them through the text layer, and the text
    layer puts what the script writes into the file with the line separator
    of the host, LF or CR LF.  The script hands back the lines it read with
    one of them replaced.  In the file every line that had a terminator
    then ends with the line separator of the host, and so does the
    replacement: a line is byte for byte the line it was exactly when it
    ended with that separator already or had no terminator and was not the
    one replaced, and the replacement has the terminator of the line it
    replaces when that line ended with the separator of the host. *)
Theorem rewrite_ends_lines_with_host_separator linesep versionString file w raw line :
  linesep = nl ∨ linesep = crlf →
  files (fs w) !! file = Some (universal_newlines raw) →
  last (filter has_tag (Py.readlines (universal_newlines raw))) = Some line →
  ∃ i old new,
    raw_lines raw !! i = Some old
    ∧ universal_newlines old = line
    ∧ (let text' := <[i:=new]> (universal_newlines <$> raw_lines raw) in
       (UpdateCsprojAssemblyVersion versionString file w).1 = Done ()
       ∧ log (UpdateCsprojAssemblyVersion versionString file w).2
         = log w ++ [ERead file; EWrite file (Py.writelines text')]
       ∧ to_linesep linesep (Py.writelines text')
         = Py.writelines (<[i:=to_linesep linesep new]>
                            (rewritten linesep <$> raw_lines raw)))
    ∧ terminator (to_linesep linesep new) = linesep
    ∧ (terminator old = linesep →
       terminator (to_linesep linesep new) = terminator old)
    ∧ ∀ l, l ∈ raw_lines raw →
        (terminator l = linesep ∨ terminator l = "" → rewritten linesep l = l)
        ∧ (terminator l ≠ "" → terminator (rewritten linesep l) = linesep)
        ∧ (terminator l = "" → terminator (rewritten linesep l) = "").
Proof.
  intros Hsep Hfile Hlast.
  destruct (Update_tag versionString _ _ _ _ Hfile Hlast)
    as (i & lead & Hi & _ & Hrun).
  destruct (last_filter_has_tag _ _ Hlast) as [_ Hin].
  destruct (index_remove_insert line "" _ Hin) as (i' & _ & Hi' & Hat & _).
  rewrite Hi in Hi'. injection Hi' as <-.
  rewrite readlines_universal in Hat, Hrun.
  apply list_lookup_fmap_Some in Hat as (old & Hold & Holdline).
  assert (terminator (to_linesep linesep (replacement lead versionString)) = linesep)
    as Hnew.
  { destruct (to_linesep_replacement linesep lead versionString) as (s & ->).
    by apply terminator_after_gt. }
  exists i, old, (replacement lead versionString).
  split; [done|]. split; [done|]. split.
  { cbv zeta in *. rewrite Hrun. split; [done|]. split; [done|].
    rewrite to_linesep_writelines, list_fmap_insert, <-list_fmap_compose. done. }
  split; [done|]. split; [by intros ->|].
  intros l Hl. apply rewritten_terminator; [done|].
  pose proof (raw_lines_shape raw) as Hshape. rewrite Forall_forall in Hshape. auto.
Qed.

Lemma rewrite_ends_lines_with_host_separator_witness :
  let w := one_file "a.csproj" (universal_newlines sample_crlf) in
  let line := "  <AssemblyVersion>1.0.0</AssemblyVersion>" +:+ nl in
  (crlf = nl ∨ crlf = crlf)
  ∧ files (fs w) !! "a.csproj" = Some (universal_newlines sample_crlf)
  ∧ last (filter has_tag (Py.readlines (universal_newlines sample_crlf))) = Some line
  ∧ ∃ i old new,
      raw_lines sample_crlf !! i = Some old
      ∧ universal_newlines old = line
      ∧ (let text' := <[i:=new]> (universal_newlines <$> raw_lines sample_crlf) in
         (UpdateCsprojAssemblyVersion "2.1.3" "a.csproj" w).1 = Done ()
         ∧ log (UpdateCsprojAssemblyVersion "2.1.3" "a.csproj" w).2
           = log w ++ [ERead "a.csproj"; EWrite "a.csproj" (Py.writelines text')]
         ∧ to_linesep crlf (Py.writelines text')
           = Py.writelines (<[i:=to_linesep crlf new]>
                              (rewritten crlf <$> raw_lines sample_crlf)))
      ∧ terminator (to_linesep crlf new) = crlf
      ∧ (terminator old = crlf →
         terminator (to_linesep crlf new) = terminator old)
      ∧ ∀ l, l ∈ raw_lines sample_crlf →
          (terminator l = crlf ∨ terminator l = "" → rewritten crlf l = l)
          ∧ (terminator l ≠ "" → terminator (rewritten crlf l) = crlf)
          ∧ (terminator l = "" → terminator (rewritten crlf l) = "").
Proof.
  intros w line.
  assert (crlf = nl ∨ crlf = crlf) as Hsep by (right; reflexivity).
  assert (files (fs w) !! "a.csproj" = Some (universal_newlines sample_crlf)) as Hfile
    by apply lookup_singleton_eq.
  assert (last (filter has_tag (Py.readlines (universal_newlines sample_crlf)))
          = Some line) as Hlast by reflexivity.
  split; [exact Hsep|]. split; [exact Hfile|]. split; [exact Hlast|].
  exact (rewrite_ends_lines_with_host_separator crlf "2.1.3" "a.csproj" w sample_crlf
           line Hsep Hfile Hlast).
Defined.

(** On a host of the Windows family a file with CR LF line ends is
    rewritten with CR LF line ends, the replacement included. *)
Example ex_patch_crlf_on_crlf_host :
  let w := one_file "a.csproj" (universal_newlines sample_crlf) in
  ∃ text, log (UpdateCsprojAssemblyVersion "2.1.3" "a.csproj" w).2
          = [ERead "a.csproj"; EWrite "a.csproj" text]
          ∧ to_linesep crlf text
            = "<Project>" +:+ crlf +:+
              "  <AssemblyVersion>2.1.3</AssemblyVersion>" +:+ crlf +:+
              "</Project>" +:+ crlf.
Proof. cbv zeta. eexists. split; reflexivity. Qed.

(** C8, as the specification has it, fails in two ways.  A tagged last
    line without a line terminator is replaced by a line that ends with
    the line separator of the host.  And on a host whose line separator is
    LF, a file with CR LF line ends is rewritten with LF line ends, the
    replacement included. *)
Lemma terminator_not_preserved :
  (let w := one_file "a.csproj" (universal_newlines sample_unterminated) in
   let old := "  <AssemblyVersion>1.0.0</AssemblyVersion>" in
   let new := "  <AssemblyVersion>2.1.3</AssemblyVersion>" in
   raw_lines sample_unterminated = ["<Project>" +:+ nl; old]
   ∧ has_tag old
   ∧ ∃ text,
       log (UpdateCsprojAssemblyVersion "2.1.3" "a.csproj" w).2
       = [ERead "a.csproj"; EWrite "a.csproj" text]
       ∧ raw_lines (to_linesep nl text) = ["<Project>" +:+ nl; new +:+ nl]
       ∧ raw_lines (to_linesep crlf text) = ["<Project>" +:+ crlf; new +:+ crlf]
       ∧ terminator old = ""
       ∧ terminator (new +:+ nl) ≠ terminator old
       ∧ terminator (new +:+ crlf) ≠ terminator old)
  ∧ (let w := one_file "a.csproj" (universal_newlines sample_crlf) in
     let old := "  <AssemblyVersion>1.0.0</AssemblyVersion>" +:+ crlf in
     let new := "  <AssemblyVersion>2.1.3</AssemblyVersion>" +:+ nl in
     raw_lines sample_crlf = ["<Project>" +:+ crlf; old; "</Project>" +:+ crlf]
     ∧ has_tag old
     ∧ ∃ text,
         log (UpdateCsprojAssemblyVersion "2.1.3" "a.csproj" w).2
         = [ERead "a.csproj"; EWrite "a.csproj" text]
         ∧ raw_lines (to_linesep nl text)
           = ["<Project>" +:+ nl; new; "</Project>" +:+ nl]
         ∧ terminator old = crlf
         ∧ terminator new = nl
         ∧ terminator new ≠ terminator old).
Proof.
  cbv zeta. split.
  - split; [reflexivity|]. split; [reflexivity|]. eexists.
    split; [reflexivity|]. split; [reflexivity|]. split; [reflexivity|].
    split; [reflexivity|]. split; discriminate.
  - split; [reflexivity|]. split; [reflexivity|]. eexists.
    split; [reflexivity|]. split; [reflexivity|]. split; [reflexivity|].
    split; [reflexivity|]. discriminate.
Qed.

(** C10.  The line the loop selects, when it selects one, carries the tag
    and therefore a [<]: the position of its first [<] is defined, the
    slice up to it is the text before the first [<], and the look-up
    returns instead of raising.  The same holds for the look-up of the line
    in the text.  So the patcher ends normally on every file it can read. *)
Theorem leading_whitespace_extraction_defined text :
  assemblyVersionLine text ≠ "" →
  let line := assemblyVersionLine text in
  has_tag line
  ∧ (∃ n, Py.find "<" line = Some n
          ∧ or_raise "ValueError" (Py.find "<" line) = mret n
          ∧ before_first_lt line (Py.slice_to n line))
  ∧ (∃ i, Py.list_index line text = Some i)
  ∧ ∀ versionString file w content,
      files (fs w) !! file = Some content →
      (UpdateCsprojAssemblyVersion versionString file w).1 = Done ().
Proof.
  intros Hsome line. subst line. revert Hsome.
  rewrite assemblyVersionLine_last.
  destruct (last (filter has_tag text)) as [line|] eqn:Hlast; [|done].
  change (default "" (Some line)) with line. intros _.
  destruct (last_filter_has_tag _ _ Hlast) as [Htag Hin].
  split; [done|]. split; [|split].
  - apply has_tag_find in Htag as [n Hn].
    destruct (find_tag_lt _ _ Hn) as (m & Hm & _).
    exists m. rewrite Hm. split; [done|]. split; [done|]. by apply find_slice.
  - destruct (index_remove_insert line "" _ Hin) as (i & _ & Hi & _). eauto.
  - intros versionString file w content Hfile. apply Update_readable. eauto.
Qed.

Lemma leading_whitespace_extraction_defined_witness :
  let text := Py.readlines sample_project in
  let line := assemblyVersionLine text in
  assemblyVersionLine text ≠ ""
  ∧ has_tag line
  ∧ (∃ n, Py.find "<" line = Some n
          ∧ or_raise "ValueError" (Py.find "<" line) = mret n
          ∧ before_first_lt line (Py.slice_to n line))
  ∧ (∃ i, Py.list_index line text = Some i)
  ∧ ∀ versionString file w content,
      files (fs w) !! file = Some content →
      (UpdateCsprojAssemblyVersion versionString file w).1 = Done ().
Proof.
  intros text line.
  assert (assemblyVersionLine text ≠ "") as Hsome by discriminate.
  split; [exact Hsome|].
  exact (leading_whitespace_extraction_defined text Hsome).
Defined.

Example ex_selected_line :
  assemblyVersionLine (Py.readlines sample_two_tags)
  = "      <AssemblyVersion>1.5.0</AssemblyVersion>" +:+ nl.
Proof. reflexivity. Qed.

(** ** What the pieces of the script add to the log *)

Section emits.
Context (P : Event → Prop).

Lemma emits_ret {A} (a : A) : emits P (mret a).
Proof. intros w. exists []. by rewrite app_nil_r. Qed.

Lemma emits_bind {A B} (m : M A) (k : A → M B) :
  emits P m → (∀ a, emits P (k a)) → emits P (m ≫= k).
Proof.
  intros Hm Hk w. destruct (Hm w) as (evs & Hlog & Hevs).
  unfold mbind, M_bind. destruct (m w) as [[a| |exn] w']; cbn in *.
  - destruct (Hk a w') as (evs' & Hlog' & Hevs').
    exists (evs ++ evs'). rewrite Hlog', Hlog, app_assoc.
    split; [done|]. by apply Forall_app.
  - by exists evs.
  - by exists evs.
Qed.

Lemma emits_event {A} (r : Result A) (ev : Event) :
  P ev → emits P (λ w, (r, emit [ev] w)).
Proof. intros Hev w. exists [ev]. split; [done|]. by constructor. Qed.

Lemma emits_print msg : P (EPrint msg) → emits P (print msg).
Proof. apply emits_event. Qed.

Lemma emits_sys_exit {A} : emits P (@sys_exit A).
Proof. intros w. exists []. by rewrite app_nil_r. Qed.

Lemma emits_or_raise {A} exn (o : option A) : emits P (or_raise exn o).
Proof. intros w. exists []. destruct o; by rewrite app_nil_r. Qed.

Lemma emits_when b (m : M unit) : emits P m → emits P (when b m).
Proof. destruct b; [done|]. intros _. apply emits_ret. Qed.

Lemma emits_isdir path : P (EIsdir path) → emits P (isdir path).
Proof. intros Hev w. exists [EIsdir path]. split; [done|]. by constructor. Qed.

Lemma emits_rmtree path : P (ERmtree path) → emits P (rmtree path).
Proof.
  intros Hev w. exists [ERmtree path]. split; [|by constructor].
  unfold rmtree. by destruct (decide _).
Qed.

Lemma emits_sleep others seconds : P (ESleep seconds) → emits P (sleep others seconds).
Proof. intros Hev w. exists [ESleep seconds]. split; [done|]. by constructor. Qed.

Lemma emits_read_lines file : P (ERead file) → emits P (read_lines file).
Proof.
  intros Hev w. exists [ERead file]. split; [|by constructor].
  unfold read_lines. by destruct (_ !! _).
Qed.

Lemma emits_write_lines file text :
  P (EWrite file (Py.writelines text)) → emits P (write_lines file text).
Proof. intros Hev w. eexists [_]. split; [done|]. by constructor. Qed.

End emits.

Lemma emits_mono {A} (P Q : Event → Prop) (m : M A) :
  (∀ ev, P ev → Q ev) → emits P m → emits Q m.
Proof.
  intros HPQ Hm w. destruct (Hm w) as (evs & Hlog & Hevs).
  exists evs. split; [done|]. by eapply Forall_impl.
Qed.

Lemma UpdateCsprojAssemblyVersion_emits versionString file :
  emits (λ ev, patching ev = true) (UpdateCsprojAssemblyVersion versionString file).
Proof.
  unfold UpdateCsprojAssemblyVersion.
  apply emits_bind; [by apply emits_read_lines|]. intros text. cbv zeta.
  destruct (decide _); [by apply emits_print|].
  repeat (apply emits_bind; [apply emits_or_raise|intros ?]).
  by apply emits_write_lines.
Qed.

Lemma clean_pass_emits targets :
  emits (λ ev, cleaning ev = true) (clean_pass targets).
Proof.
  induction targets as [|p ps IH]; [apply emits_ret|].
  cbn [clean_pass]. apply emits_bind; [|done].
  apply emits_bind; [by apply emits_isdir|].
  intros b. apply emits_when. by apply emits_rmtree.
Qed.

(** ** The checks at the start of the script *)

Lemma main_usage e w :
  args e = [] → main e w = (Exited, emit [EPrint (usage e)] w).
Proof. intros Hargs. unfold main, sys_argv. by rewrite Hargs. Qed.

Lemma main_version_rejected e w versionString rest :
  args e = versionString :: rest →
  length (Py.split "." versionString) ≠ 3 →
  main e w = (Exited, emit [EPrint version_error] w).
Proof.
  intros Hargs Hlen%Nat.eqb_neq. unfold main, sys_argv. rewrite Hargs.
  cbn [length Nat.ltb Nat.leb when lookup list_lookup or_raise].
  erewrite bind_Done by reflexivity. erewrite bind_Done by reflexivity.
  by rewrite Hlen.
Qed.

Lemma main_version_accepted e w versionString rest :
  args e = versionString :: rest →
  length (Py.split "." versionString) = 3 →
  main e w
  = (when (negb (bool_decide (currentDirectoryName e = "Color Selector")))
          (print location_error ;; sys_exit) ;;
     build e versionString) w.
Proof.
  intros Hargs Hlen%Nat.eqb_eq. unfold main, sys_argv. rewrite Hargs.
  cbn [length Nat.ltb Nat.leb when lookup list_lookup or_raise].
  erewrite bind_Done by reflexivity. erewrite bind_Done by reflexivity.
  rewrite Hlen. cbn [negb when]. by erewrite bind_Done by reflexivity.
Qed.

Lemma main_location_rejected e w versionString rest :
  args e = versionString :: rest →
  length (Py.split "." versionString) = 3 →
  currentDirectoryName e ≠ "Color Selector" →
  main e w = (Exited, emit [EPrint location_error] w).
Proof.
  intros Hargs Hlen Hname. rewrite (main_version_accepted _ _ _ _ Hargs Hlen).
  by rewrite bool_decide_eq_false_2.
Qed.

Lemma main_build e w versionString rest :
  args e = versionString :: rest →
  length (Py.split "." versionString) = 3 →
  currentDirectoryName e = "Color Selector" →
  main e w = build e versionString w.
Proof.
  intros Hargs Hlen Hname. rewrite (main_version_accepted _ _ _ _ Hargs Hlen).
  rewrite bool_decide_eq_true_2 by done. by erewrite bind_Done by reflexivity.
Qed.

Lemma bind_ext {A B} (m : M A) (k k' : A → M B) w :
  (∀ a w', k a w' = k' a w') → (m ≫= k) w = (m ≫= k') w.
Proof. intros Hk. unfold mbind, M_bind. by destruct (m w) as [[a| |exn] w']. Qed.

Lemma bind_ret_unit (m : M unit) w : (m ;; mret ()) w = m w.
Proof. unfold mbind, M_bind. by destruct (m w) as [[[]| |exn] w']. Qed.

Lemma clean_targets_eq e :
  clean_targets e
  = String.append (currentDirectory e) <$>
      ["\ColorSelector\bin"; "\ColorSelector\obj";
       "\ColorSelectorTestApp\bin"; "\ColorSelectorTestApp\obj"].
Proof.
  unfold clean_targets, colorSelectorDir, colorSelectorStandaloneDir.
  rewrite !format_path. cbn. by rewrite !append_assoc.
Qed.

(** The four tests of [CleanDirectories] are one pass over the four
    targets. *)
Lemma CleanDirectories_pass e w :
  CleanDirectories (colorSelectorDir e) (colorSelectorStandaloneDir e) w
  = clean_pass (clean_targets e) w.
Proof.
  unfold CleanDirectories, clean_targets.
  rewrite !format_path. cbn [mbind list_bind clean_pass app].
  do 3 (apply bind_ext; intros _ ?).
  by rewrite bind_ret_unit.
Qed.

Lemma CleanDirectories_emits e :
  emits (λ _, True)
    (CleanDirectories (colorSelectorDir e) (colorSelectorStandaloneDir e)).
Proof.
  intros w. rewrite CleanDirectories_pass.
  by apply (emits_mono _ _ _ (λ _ _, I) (clean_pass_emits _)).
Qed.

Ltac solve_emits :=
  repeat first
    [ by apply emits_print
    | by apply emits_sleep
    | apply CleanDirectories_emits
    | apply (emits_mono _ _ _ (λ _ _, I) (UpdateCsprojAssemblyVersion_emits _ _))
    | apply emits_bind; [|intros ?] ].

(** The stage after the checks starts with its announcement; the log only
    grows from there. *)
Lemma build_log e versionString w :
  ∃ evs, log (build e versionString w).2
         = log w ++ EPrint "Cleaning bin and obj directories ..." :: evs.
Proof.
  unfold build. erewrite bind_Done by reflexivity.
  match goal with |- context [(?m ≫= ?k) (emit _ w)] =>
    assert (emits (λ _, True) (m ≫= k)) as Htail by solve_emits;
    destruct (Htail (emit [EPrint "Cleaning bin and obj directories ..."] w))
      as (evs & -> & _)
  end.
  exists evs. cbn. by rewrite <-app_assoc.
Qed.

(** ** The claims about the checks *)

(** C2.  The run stops at the version check, with the error message, an
    exit and nothing else, exactly when splitting the version string at the
    dots gives a number of components other than three; nothing is asked
    of the components themselves.  When it stops there the file system is
    the one it found and the message is the only event.  With three
    components the run goes on to the location check. *)
Theorem version_validation e w versionString rest :
  args e = versionString :: rest →
  (version_rejected e w ↔ length (Py.split "." versionString) ≠ 3)
  ∧ (length (Py.split "." versionString) ≠ 3 →
     (main e w).1 = Exited
     ∧ fs (main e w).2 = fs w
     ∧ log (main e w).2 = log w ++ [EPrint version_error])
  ∧ (length (Py.split "." versionString) = 3 →
     main e w
     = (when (negb (bool_decide (currentDirectoryName e = "Color Selector")))
             (print location_error ;; sys_exit) ;;
        build e versionString) w).
Proof.
  intros Hargs. split; [|split].
  - split.
    + intros Hrej Hlen. unfold version_rejected in Hrej.
      destruct (decide (currentDirectoryName e = "Color Selector")) as [Hname|Hname].
      * rewrite (main_build _ _ _ _ Hargs Hlen Hname) in Hrej.
        destruct (build_log e versionString w) as (evs & Hlog).
        rewrite Hrej in Hlog. cbn in Hlog.
        by apply app_inv_head in Hlog.
      * rewrite (main_location_rejected _ _ _ _ Hargs Hlen Hname) in Hrej.
        by injection Hrej as ?%app_inv_head.
    + intros Hlen. by eapply main_version_rejected.
  - intros Hlen. by rewrite (main_version_rejected _ _ _ _ Hargs Hlen).
  - intros Hlen. by eapply main_version_accepted.
Qed.

Lemma version_validation_witness :
  let e := sample_env ["2.1"] "Color Selector" "\" in
  let w := one_file "a.csproj" sample_project in
  args e = "2.1" :: []
  ∧ (version_rejected e w ↔ length (Py.split "." "2.1") ≠ 3)
  ∧ (length (Py.split "." "2.1") ≠ 3 →
     (main e w).1 = Exited
     ∧ fs (main e w).2 = fs w
     ∧ log (main e w).2 = log w ++ [EPrint version_error])
  ∧ (length (Py.split "." "2.1") = 3 →
     main e w
     = (when (negb (bool_decide (currentDirectoryName e = "Color Selector")))
             (print location_error ;; sys_exit) ;;
        build e "2.1") w).
Proof.
  intros e w.
  assert (args e = "2.1" :: []) as Hargs by reflexivity.
  split; [exact Hargs|].
  exact (version_validation e w "2.1" [] Hargs).
Defined.

(** The components need not be numbers, and an empty string has one
    component, not none. *)
Example ex_split_letters : length (Py.split "." "a.b.c") = 3.
Proof. reflexivity. Qed.

Lemma split_not_nil sep s : Py.split sep s ≠ [].
Proof.
  destruct s as [|c s]; [done|]. cbn.
  destruct (Ascii.eqb c sep); [done|]. by destruct (Py.split sep s).
Qed.

Example ex_version_rejected :
  main (sample_env ["2.1.3.4"] "Color Selector" "\") (one_file "a.csproj" sample_project)
  = (Exited, emit [EPrint version_error] (one_file "a.csproj" sample_project)).
Proof. reflexivity. Qed.

(** C6.  Started from a directory with another name than [Color Selector],
    the run prints one message and exits: the file system is the one it
    found and the message is the only event, so no directory is removed
    and no file written.  The message is the one of the first check that
    fails; when the arguments pass their checks it is the location
    error. *)
Theorem wrong_directory_stops e w :
  currentDirectoryName e ≠ "Color Selector" →
  ∃ msg,
    main e w = (Exited, emit [EPrint msg] w)
    ∧ fs (main e w).2 = fs w
    ∧ Forall (λ ev, mutates ev = false) [EPrint msg]
    ∧ (msg = usage e ∨ msg = version_error ∨ msg = location_error)
    ∧ ∀ versionString rest,
        args e = versionString :: rest →
        length (Py.split "." versionString) = 3 →
        msg = location_error.
Proof.
  intros Hname. destruct (args e) as [|versionString rest] eqn:Hargs.
  - exists (usage e). rewrite (main_usage _ _ Hargs).
    split; [done|]. split; [done|]. split; [by constructor|]. split; [by left|].
    intros ?? [=].
  - destruct (decide (length (Py.split "." versionString) = 3)) as [Hlen|Hlen].
    + exists location_error.
      rewrite (main_location_rejected _ _ _ _ Hargs Hlen Hname).
      split; [done|]. split; [done|]. split; [by constructor|].
      split; [by right; right|]. done.
    + exists version_error.
      rewrite (main_version_rejected _ _ _ _ Hargs Hlen).
      split; [done|]. split; [done|]. split; [by constructor|].
      split; [by right; left|].
      intros ?? [= <- <-] ?. done.
Qed.

Lemma wrong_directory_stops_witness :
  let e := sample_env ["2.1.3"] "Downloads" "\" in
  let w := one_file "a.csproj" sample_project in
  currentDirectoryName e ≠ "Color Selector"
  ∧ ∃ msg,
      main e w = (Exited, emit [EPrint msg] w)
      ∧ fs (main e w).2 = fs w
      ∧ Forall (λ ev, mutates ev = false) [EPrint msg]
      ∧ (msg = usage e ∨ msg = version_error ∨ msg = location_error)
      ∧ ∀ versionString rest,
          args e = versionString :: rest →
          length (Py.split "." versionString) = 3 →
          msg = location_error.
Proof.
  intros e w.
  assert (currentDirectoryName e ≠ "Color Selector") as Hname by discriminate.
  split; [exact Hname|].
  exact (wrong_directory_stops e w Hname).
Defined.

Example ex_wrong_directory :
  main (sample_env ["2.1.3"] "Downloads" "\") (one_file "a.csproj" sample_project)
  = (Exited, emit [EPrint location_error] (one_file "a.csproj" sample_project)).
Proof. reflexivity. Qed.

(** ** The claim about the paths *)

(** C9, as the code has it.  The four paths are the directory of the script
    and the fixed names, joined by a backslash; the separator of the host
    plays no part, so two hosts that differ in it alone get the same
    paths. *)
Theorem paths_joined_by_backslash e :
  colorSelectorDir e = joined "\" (currentDirectory e) "ColorSelector"
  ∧ colorSelectorStandaloneDir e
    = joined "\" (currentDirectory e) "ColorSelectorTestApp"
  ∧ colorSelectorCsproj e
    = joined "\" (colorSelectorDir e) "ColorSelector.csproj"
  ∧ colorSelectorStandaloneCsproj e
    = joined "\" (colorSelectorStandaloneDir e) "ColorSelectorStandalone.csproj"
  ∧ clean_targets e
    = [joined "\" (colorSelectorDir e) "bin"; joined "\" (colorSelectorDir e) "obj";
       joined "\" (colorSelectorStandaloneDir e) "bin";
       joined "\" (colorSelectorStandaloneDir e) "obj"]
  ∧ ∀ e', currentDirectory e' = currentDirectory e →
      colorSelectorDir e' = colorSelectorDir e
      ∧ colorSelectorStandaloneDir e' = colorSelectorStandaloneDir e
      ∧ colorSelectorCsproj e' = colorSelectorCsproj e
      ∧ colorSelectorStandaloneCsproj e' = colorSelectorStandaloneCsproj e.
Proof.
  unfold colorSelectorCsproj, colorSelectorStandaloneCsproj,
    colorSelectorDir, colorSelectorStandaloneDir, joined.
  rewrite !format_path. split_and!; try done.
  intros e' ->. by rewrite !format_path.
Qed.

(** C9, as the specification has it, fails: on a host whose separator is a
    slash the paths are still joined by a backslash. *)
Lemma paths_not_joined_by_host_separator :
  let e := sample_env ["2.1.3"] "Color Selector" "/" in
  os_sep e = "/"
  ∧ colorSelectorDir e = "C:\work\Color Selector\ColorSelector"
  ∧ colorSelectorDir e ≠ joined (os_sep e) (currentDirectory e) "ColorSelector"
  ∧ colorSelectorStandaloneDir e
    ≠ joined (os_sep e) (currentDirectory e) "ColorSelectorTestApp"
  ∧ colorSelectorCsproj e
    ≠ joined (os_sep e) (colorSelectorDir e) "ColorSelector.csproj"
  ∧ colorSelectorStandaloneCsproj e
    ≠ joined (os_sep e) (colorSelectorStandaloneDir e) "ColorSelectorStandalone.csproj".
Proof. cbv zeta. split_and!; [reflexivity..|discriminate|discriminate|discriminate|discriminate]. Qed.

(** ** The cleaning passes *)

Lemma within_append s p q : within (s +:+ p) (s +:+ q) = within p q.
Proof.
  unfold within, beneath. rewrite append_assoc, prefix_append. f_equal.
  apply bool_decide_ext. split; [by intros ?%(inj _)|by intros ->].
Qed.

Lemma clean_targets_apart e : apart (clean_targets e).
Proof.
  rewrite clean_targets_eq. cbn [fmap list_fmap apart].
  repeat split; repeat constructor; by rewrite within_append.
Qed.

Lemma without_tree_dirs p s q :
  q ∈ dirs (without_tree p s) ↔ q ∈ dirs s ∧ within p q = false.
Proof. cbn. rewrite elem_of_filter. tauto. Qed.

Lemma without_tree_files p s q :
  files s !! q = None ∨ beneath p q = true → files (without_tree p s) !! q = None.
Proof.
  intros H. cbn. apply map_lookup_filter_None. destruct H as [?|Hb]; [by left|].
  right. intros x _ Hx. change (beneath p q = false) in Hx. congruence.
Qed.

Lemma pass_fs_cons p ps s :
  pass_fs (p :: ps) s
  = pass_fs ps (if bool_decide (p ∈ dirs s) then without_tree p s else s).
Proof. done. Qed.

Lemma pass_events_cons p ps s :
  pass_events (p :: ps) s
  = (if bool_decide (p ∈ dirs s) then [EIsdir p; ERmtree p] else [EIsdir p])
    ++ pass_events ps s.
Proof. done. Qed.

Lemma pass_fs_locked targets s : locked (pass_fs targets s) = locked s.
Proof.
  revert s. induction targets as [|p ps IH]; intros s; [done|].
  rewrite pass_fs_cons, IH. by destruct (bool_decide _).
Qed.

Lemma pass_fs_dirs targets s q : q ∈ dirs (pass_fs targets s) → q ∈ dirs s.
Proof.
  revert s. induction targets as [|p ps IH]; intros s; [done|].
  rewrite pass_fs_cons. intros Hq%IH. destruct (bool_decide _); [|done].
  by apply without_tree_dirs in Hq as [? _].
Qed.

Lemma pass_fs_files targets s q :
  files s !! q = None → files (pass_fs targets s) !! q = None.
Proof.
  revert s. induction targets as [|p ps IH]; intros s; [done|].
  rewrite pass_fs_cons. intros Hq. apply IH. destruct (bool_decide _); [|done].
  apply without_tree_files. by left.
Qed.

Lemma pass_events_ext targets s s' :
  (∀ q, q ∈ targets → q ∈ dirs s ↔ q ∈ dirs s') →
  pass_events targets s = pass_events targets s'.
Proof.
  induction targets as [|p ps IH]; intros Hsame; [done|].
  rewrite !pass_events_cons, IH.
  - f_equal. by rewrite (bool_decide_ext _ _ (Hsame p (list_elem_of_here _ _))).
  - intros q Hq. apply Hsame. by right.
Qed.

(** A later target is a directory after the removal of an earlier one
    exactly when it was one before. *)
Lemma apart_dirs p ps s q :
  Forall (λ q, within p q = false) ps → q ∈ ps →
  q ∈ dirs (without_tree p s) ↔ q ∈ dirs s.
Proof.
  intros Hps Hq. rewrite without_tree_dirs.
  rewrite Forall_forall in Hps. specialize (Hps q Hq). tauto.
Qed.

(** A pass that meets no refusal ends normally; its events and the file
    system it leaves can be read off the file system it starts from. *)
Lemma clean_pass_ok targets s l :
  apart targets →
  (∀ p, p ∈ targets → p ∈ dirs s → ¬ refuses s p) →
  clean_pass targets {| fs := s; log := l |}
  = (Done (), {| fs := pass_fs targets s; log := l ++ pass_events targets s |}).
Proof.
  revert s l. induction targets as [|p ps IH]; intros s l Hapart Hfree.
  { cbn. by rewrite app_nil_r. }
  destruct Hapart as [Hp Hps].
  rewrite pass_fs_cons, pass_events_cons. cbn [clean_pass].
  unfold mbind at 1, M_bind. unfold mbind at 1, M_bind. cbn [isdir fs log emit].
  destruct (bool_decide (p ∈ dirs s)) eqn:Hdir; cbn [when].
  - apply bool_decide_eq_true in Hdir. unfold rmtree. cbn [fs log emit].
    rewrite decide_False by (apply Hfree; [by left|done]).
    rewrite IH; [|done|].
    + rewrite <-!app_assoc. cbn [app].
      rewrite (pass_events_ext ps (without_tree p s) s); [done|].
      intros q Hq. by eapply apart_dirs.
    + intros q Hq Hqdir. apply (Hfree q); [by right|].
      by eapply apart_dirs.
  - unfold mret, M_ret, emit. cbn [fs log]. rewrite IH; [|done|].
    + by rewrite <-!app_assoc.
    + intros q Hq. apply Hfree. by right.
Qed.

(** A refused removal ends the pass with the error of the system. *)
Lemma clean_pass_refused targets s l p :
  apart targets →
  p ∈ targets → p ∈ dirs s → refuses s p →
  (clean_pass targets {| fs := s; log := l |}).1 = Raised "OSError".
Proof.
  revert s l. induction targets as [|p0 ps IH]; intros s l Hapart Hin Hdir Href.
  { by apply elem_of_nil in Hin. }
  destruct Hapart as [Hp Hps]. cbn [clean_pass].
  unfold mbind at 1, M_bind. unfold mbind at 1, M_bind. cbn [isdir fs log emit].
  destruct (bool_decide (p0 ∈ dirs s)) eqn:Hdir0; cbn [when].
  - unfold rmtree. cbn [fs log emit]. destruct (decide (refuses s p0)); [done|].
    apply elem_of_cons in Hin as [->|Hin]; [done|].
    apply IH; [done|done| |done].
    by eapply apart_dirs.
  - apply bool_decide_eq_false in Hdir0.
    apply elem_of_cons in Hin as [->|Hin]; [done|].
    unfold mret, M_ret, emit. cbn [fs log]. by apply IH.
Qed.

(** After a pass no target is a directory, and of a target that was one
    nothing is left: no directory at or beneath it, no file beneath it. *)
Lemma pass_fs_removed targets s p :
  apart targets → p ∈ targets →
  (p ∉ dirs (pass_fs targets s))
  ∧ (p ∈ dirs s → ∀ q,
       (within p q = true → q ∉ dirs (pass_fs targets s))
       ∧ (beneath p q = true → files (pass_fs targets s) !! q = None)).
Proof.
  revert s. induction targets as [|p0 ps IH]; intros s Hapart Hin.
  { by apply elem_of_nil in Hin. }
  destruct Hapart as [Hp Hps]. rewrite pass_fs_cons.
  apply elem_of_cons in Hin as [->|Hin].
  - destruct (bool_decide (p0 ∈ dirs s)) eqn:Hdir0.
    + assert (within p0 p0 = true) as Hself
        by (unfold within; by rewrite bool_decide_eq_true_2).
      split.
      * intros [_ ?]%pass_fs_dirs%without_tree_dirs. congruence.
      * intros _ q. split.
        -- intros Hq [_ ?]%pass_fs_dirs%without_tree_dirs. congruence.
        -- intros Hq. apply pass_fs_files, without_tree_files. by right.
    + apply bool_decide_eq_false in Hdir0. split; [|done].
      by intros ?%pass_fs_dirs.
  - destruct (IH (if bool_decide (p0 ∈ dirs s) then without_tree p0 s else s)
                Hps Hin) as [Hgone Hrec].
    split; [done|]. intros Hdir. apply Hrec.
    destruct (bool_decide (p0 ∈ dirs s)); [|done]. by eapply apart_dirs.
Qed.

(** A pass that finds none of its targets changes nothing and only
    looks. *)
Lemma pass_fs_skip targets s :
  (∀ p, p ∈ targets → p ∉ dirs s) →
  pass_fs targets s = s ∧ pass_events targets s = EIsdir <$> targets.
Proof.
  induction targets as [|p ps IH]; intros Hnone; [done|].
  rewrite pass_fs_cons, pass_events_cons.
  rewrite bool_decide_eq_false_2 by (apply Hnone; by left).
  destruct IH as [-> ->]; [|done]. intros q Hq. apply Hnone. by right.
Qed.

(** The cleaning stage when the first pass meets no refusal: the
    announcement, the first pass, the sleep, and the second pass from the
    file system the sleep ends with. *)
Lemma build_first_pass e versionString w :
  let T := clean_targets e in
  (∀ p, p ∈ T → p ∈ dirs (fs w) → ¬ refuses (fs w) p) →
  build e versionString w
  = (CleanDirectories (colorSelectorDir e) (colorSelectorStandaloneDir e) ;;
     print "done." ;;
     print "Setting version {0} in .csproj files ..." ;;
     UpdateCsprojAssemblyVersion versionString (colorSelectorCsproj e) ;;
     UpdateCsprojAssemblyVersion versionString (colorSelectorStandaloneCsproj e) ;;
     print "done.")
      {| fs := during_sleep e (pass_fs T (fs w));
         log := log w ++ [EPrint "Cleaning bin and obj directories ..."]
                ++ pass_events T (fs w) ++ [ESleep 3] |}.
Proof.
  intros T Hfree. unfold build.
  erewrite bind_Done by reflexivity.
  erewrite bind_Done; last first.
  { rewrite CleanDirectories_pass. unfold emit. cbn [fs log].
    apply clean_pass_ok; [apply clean_targets_apart|done]. }
  erewrite bind_Done by reflexivity.
  cbn [fs log]. by rewrite <-!app_assoc.
Qed.

(** C7.  Once the checks have passed, the run announces the cleaning,
    makes one pass over the four targets, sleeps three seconds, makes the
    same pass again from whatever file system the sleep ends with, and goes
    on to the patching: two passes, one sleep between them, no third pass.
    In a pass each target that is a directory is removed with all that is
    in it, and a target that is no directory is only looked at.  A removal
    that the system refuses, in the first pass or in the second, ends the
    run with the error of the system. *)
Theorem two_cleaning_passes e w versionString rest :
  args e = versionString :: rest →
  length (Py.split "." versionString) = 3 →
  currentDirectoryName e = "Color Selector" →
  let T := clean_targets e in
  let s2 := during_sleep e (pass_fs T (fs w)) in
  let cleaned :=
    {| fs := pass_fs T s2;
       log := log w ++ [EPrint "Cleaning bin and obj directories ..."]
              ++ pass_events T (fs w) ++ [ESleep 3]
              ++ pass_events T s2 ++ [EPrint "done."] |} in
  length T = 4
  ∧ ((∀ p, p ∈ T → p ∈ dirs (fs w) → ¬ refuses (fs w) p) →
     (∀ p, p ∈ T → p ∈ dirs s2 → ¬ refuses s2 p) →
     main e w
     = (print "Setting version {0} in .csproj files ..." ;;
        UpdateCsprojAssemblyVersion versionString (colorSelectorCsproj e) ;;
        UpdateCsprojAssemblyVersion versionString (colorSelectorStandaloneCsproj e) ;;
        print "done.") cleaned
     ∧ ∃ evs, log (main e w).2 = log cleaned ++ evs
              ∧ Forall (λ ev, patching ev = true) evs)
  ∧ (∀ s p, p ∈ T →
       (p ∉ dirs (pass_fs T s))
       ∧ (p ∈ dirs s → ∀ q,
            (within p q = true → q ∉ dirs (pass_fs T s))
            ∧ (beneath p q = true → files (pass_fs T s) !! q = None)))
  ∧ (∀ s, (∀ p, p ∈ T → p ∉ dirs s) →
       pass_fs T s = s ∧ pass_events T s = EIsdir <$> T)
  ∧ ((∃ p, p ∈ T ∧ p ∈ dirs (fs w) ∧ refuses (fs w) p) →
     (main e w).1 = Raised "OSError")
  ∧ ((∀ p, p ∈ T → p ∈ dirs (fs w) → ¬ refuses (fs w) p) →
     (∃ p, p ∈ T ∧ p ∈ dirs s2 ∧ refuses s2 p) →
     (main e w).1 = Raised "OSError").
Proof.
  intros Hargs Hlen Hname T s2 cleaned.
  rewrite (main_build _ _ _ _ Hargs Hlen Hname).
  pose proof (clean_targets_apart e) as Hapart. fold T in Hapart.
  split; [by subst T; rewrite clean_targets_eq|].
  split; [|split; [|split; [|split]]].
  - intros Hfree1 Hfree2.
    assert (build e versionString w
            = (print "Setting version {0} in .csproj files ..." ;;
               UpdateCsprojAssemblyVersion versionString (colorSelectorCsproj e) ;;
               UpdateCsprojAssemblyVersion versionString
                 (colorSelectorStandaloneCsproj e) ;;
               print "done.") cleaned) as Hrun.
    { rewrite build_first_pass by done.
      erewrite bind_Done; last first.
      { rewrite CleanDirectories_pass. by apply clean_pass_ok. }
      erewrite bind_Done by reflexivity.
      unfold emit, cleaned. cbn [fs log]. by rewrite <-!app_assoc. }
    split; [done|]. rewrite Hrun.
    match goal with |- context [(?m ≫= ?k) cleaned] =>
      assert (emits (λ ev, patching ev = true) (m ≫= k)) as Hpatch
    end.
    { repeat first [ by apply emits_print
                   | apply UpdateCsprojAssemblyVersion_emits
                   | apply emits_bind; [|intros ?] ]. }
    apply Hpatch.
  - intros s p Hp. by apply pass_fs_removed.
  - intros s Hnone. by apply pass_fs_skip.
  - intros (p & Hp & Hdir & Href). unfold build.
    erewrite bind_Done by reflexivity.
    pose proof (clean_pass_refused T (fs w)
      (log w ++ [EPrint "Cleaning bin and obj directories ..."]) p
      Hapart Hp Hdir Href) as Hraised.
    destruct (clean_pass T _) as [r w'] eqn:Hpass. cbn in Hraised. subst r.
    erewrite bind_Raised; [done|].
    rewrite CleanDirectories_pass. exact Hpass.
  - intros Hfree1 (p & Hp & Hdir & Href).
    rewrite build_first_pass by done.
    pose proof (clean_pass_refused T s2
      (log w ++ [EPrint "Cleaning bin and obj directories ..."]
       ++ pass_events T (fs w) ++ [ESleep 3]) p
      Hapart Hp Hdir Href) as Hraised.
    destruct (clean_pass T _) as [r w'] eqn:Hpass. cbn in Hraised. subst r.
    erewrite bind_Raised; [done|].
    rewrite CleanDirectories_pass. exact Hpass.
Qed.

Lemma two_cleaning_passes_witness :
  let e := sample_env ["2.1.3"] "Color Selector" "\" in
  let w := sample_checkout in
  let T := clean_targets e in
  let s2 := during_sleep e (pass_fs T (fs w)) in
  let cleaned :=
    {| fs := pass_fs T s2;
       log := log w ++ [EPrint "Cleaning bin and obj directories ..."]
              ++ pass_events T (fs w) ++ [ESleep 3]
              ++ pass_events T s2 ++ [EPrint "done."] |} in
  args e = "2.1.3" :: []
  ∧ length (Py.split "." "2.1.3") = 3
  ∧ currentDirectoryName e = "Color Selector"
  ∧ length T = 4
  ∧ ((∀ p, p ∈ T → p ∈ dirs (fs w) → ¬ refuses (fs w) p) →
     (∀ p, p ∈ T → p ∈ dirs s2 → ¬ refuses s2 p) →
     main e w
     = (print "Setting version {0} in .csproj files ..." ;;
        UpdateCsprojAssemblyVersion "2.1.3" (colorSelectorCsproj e) ;;
        UpdateCsprojAssemblyVersion "2.1.3" (colorSelectorStandaloneCsproj e) ;;
        print "done.") cleaned
     ∧ ∃ evs, log (main e w).2 = log cleaned ++ evs
              ∧ Forall (λ ev, patching ev = true) evs)
  ∧ (∀ s p, p ∈ T →
       (p ∉ dirs (pass_fs T s))
       ∧ (p ∈ dirs s → ∀ q,
            (within p q = true → q ∉ dirs (pass_fs T s))
            ∧ (beneath p q = true → files (pass_fs T s) !! q = None)))
  ∧ (∀ s, (∀ p, p ∈ T → p ∉ dirs s) →
       pass_fs T s = s ∧ pass_events T s = EIsdir <$> T)
  ∧ ((∃ p, p ∈ T ∧ p ∈ dirs (fs w) ∧ refuses (fs w) p) →
     (main e w).1 = Raised "OSError")
  ∧ ((∀ p, p ∈ T → p ∈ dirs (fs w) → ¬ refuses (fs w) p) →
     (∃ p, p ∈ T ∧ p ∈ dirs s2 ∧ refuses s2 p) →
     (main e w).1 = Raised "OSError").
Proof.
  intros e w T s2 cleaned.
  assert (args e = "2.1.3" :: []) as Hargs by reflexivity.
  assert (length (Py.split "." "2.1.3") = 3) as Hlen by reflexivity.
  assert (currentDirectoryName e = "Color Selector") as Hname by reflexivity.
  split; [exact Hargs|]. split; [exact Hlen|]. split; [exact Hname|].
  exact (two_cleaning_passes e w "2.1.3" [] Hargs Hlen Hname).
Defined.

(** A whole run on a checkout with build output in the first project: two
    directories removed in the first pass, nothing left for the second,
    one project file rewritten, a warning for the other. *)
Example ex_run_checkout :
  let r := main (sample_env ["2.1.3"] "Color Selector" "\") sample_checkout in
  r.1 = Done ()
  ∧ log r.2
    = [EPrint "Cleaning bin and obj directories ...";
       EIsdir "C:\work\Color Selector\ColorSelector\bin";
       ERmtree "C:\work\Color Selector\ColorSelector\bin";
       EIsdir "C:\work\Color Selector\ColorSelector\obj";
       ERmtree "C:\work\Color Selector\ColorSelector\obj";
       EIsdir "C:\work\Color Selector\ColorSelectorTestApp\bin";
       EIsdir "C:\work\Color Selector\ColorSelectorTestApp\obj";
       ESleep 3;
       EIsdir "C:\work\Color Selector\ColorSelector\bin";
       EIsdir "C:\work\Color Selector\ColorSelector\obj";
       EIsdir "C:\work\Color Selector\ColorSelectorTestApp\bin";
       EIsdir "C:\work\Color Selector\ColorSelectorTestApp\obj";
       EPrint "done.";
       EPrint "Setting version {0} in .csproj files ...";
       ERead "C:\work\Color Selector\ColorSelector\ColorSelector.csproj";
       EWrite "C:\work\Color Selector\ColorSelector\ColorSelector.csproj"
         ("<Project>" +:+ nl +:+
          "    <AssemblyVersion>2.1.3</AssemblyVersion>" +:+ nl +:+
          "</Project>" +:+ nl);
       ERead "C:\work\Color Selector\ColorSelectorTestApp\ColorSelectorStandalone.csproj";
       EPrint "Warning: could not find AssemblyVersion line in C:\work\Color Selector\ColorSelectorTestApp\ColorSelectorStandalone.csproj";
       EPrint "done."]
  ∧ elements (dirs (fs r.2))
    = ["C:\work\Color Selector\ColorSelectorTestApp";
       "C:\work\Color Selector\ColorSelector"].
Proof. cbv zeta. split_and!; vm_compute; reflexivity. Qed.

(** The same checkout with a file of the [bin] tree locked: the first
    removal is refused, the error ends the run, and nothing is removed or
    written. *)
Example ex_run_locked :
  let w := with_locked {[ "C:\work\Color Selector\ColorSelector\bin\Debug\ColorSelector.dll" ]}
             sample_checkout in
  let r := main (sample_env ["2.1.3"] "Color Selector" "\") w in
  r.1 = Raised "OSError"
  ∧ log r.2
    = [EPrint "Cleaning bin and obj directories ...";
       EIsdir "C:\work\Color Selector\ColorSelector\bin";
       ERmtree "C:\work\Color Selector\ColorSelector\bin"]
  ∧ fs r.2 = fs w.
Proof. cbv zeta. split_and!; vm_compute; reflexivity. Qed.

(** ** More on the checks *)

Lemma split_length sep s : length (Py.split sep s) = S (count_char sep s).
Proof.
  induction s as [|c s IH]; [done|].
  cbn [Py.split count_char]. destruct (Ascii.eqb c sep).
  - cbn. by rewrite IH.
  - destruct (Py.split sep s); [done|]. cbn in *. by rewrite <-IH.
Qed.

(** With an argument the run never ends the way it ends without one, and
    with three components it never ends at the version check. *)
Lemma main_with_argument e w versionString rest :
  args e = versionString :: rest →
  (length (Py.split "." versionString) ≠ 3
   ∧ main e w = (Exited, emit [EPrint version_error] w))
  ∨ (length (Py.split "." versionString) = 3
     ∧ currentDirectoryName e ≠ "Color Selector"
     ∧ main e w = (Exited, emit [EPrint location_error] w))
  ∨ (length (Py.split "." versionString) = 3
     ∧ currentDirectoryName e = "Color Selector"
     ∧ main e w = build e versionString w).
Proof.
  intros Hargs.
  destruct (decide (length (Py.split "." versionString) = 3)) as [Hlen|Hlen].
  - destruct (decide (currentDirectoryName e = "Color Selector")) as [Hname|Hname].
    + right; right. eauto using main_build.
    + right; left. eauto using main_location_rejected.
  - left. eauto using main_version_rejected.
Qed.

(** X1.  The run ends with the usage line, an exit and nothing else exactly
    when the script is started without an argument. *)
Theorem usage_iff_no_argument e w :
  main e w = (Exited, emit [EPrint (usage e)] w) ↔ args e = [].
Proof.
  split; [|apply main_usage].
  destruct (args e) as [|versionString rest] eqn:Hargs; [done|].
  intros Hrun. exfalso.
  destruct (main_with_argument e w _ _ Hargs)
    as [[_ Hmain]|[(_ & _ & Hmain)|(_ & _ & Hmain)]];
    rewrite Hmain in Hrun.
  - by injection Hrun as ?%app_inv_head.
  - by injection Hrun as ?%app_inv_head.
  - destruct (build_log e versionString w) as (evs & Hlog).
    rewrite Hrun in Hlog. cbn in Hlog. by apply app_inv_head in Hlog.
Qed.

(** X2.  Of its arguments the script reads the first one only: whatever
    follows it on the command line changes nothing. *)
Theorem extra_arguments_ignored e w versionString rest :
  args e = versionString :: rest →
  main e w = main (with_args [versionString] e) w.
Proof.
  intros Hargs.
  assert (args (with_args [versionString] e) = [versionString]) as Hargs' by done.
  destruct (decide (length (Py.split "." versionString) = 3)) as [Hlen|Hlen].
  - rewrite (main_version_accepted _ _ _ _ Hargs Hlen).
    by rewrite (main_version_accepted _ _ _ _ Hargs' Hlen).
  - rewrite (main_version_rejected _ _ _ _ Hargs Hlen).
    by rewrite (main_version_rejected _ _ _ _ Hargs' Hlen).
Qed.

Lemma extra_arguments_ignored_witness :
  let e := sample_env ["2.1.3"; "--force"; "x"] "Color Selector" "\" in
  args e = "2.1.3" :: ["--force"; "x"]
  ∧ main e sample_checkout = main (with_args ["2.1.3"] e) sample_checkout.
Proof.
  intros e.
  assert (args e = "2.1.3" :: ["--force"; "x"]) as Hargs by reflexivity.
  split; [exact Hargs|].
  exact (extra_arguments_ignored e sample_checkout "2.1.3" ["--force"; "x"] Hargs).
Defined.

(** X3.  The version check counts dots and nothing else: the run stops at
    it exactly when the version string does not have two dots.  Empty
    components pass, as in [..] or [1..3]. *)
Theorem version_rejected_iff_not_two_dots e w versionString rest :
  args e = versionString :: rest →
  version_rejected e w ↔ count_char "." versionString ≠ 2.
Proof.
  intros Hargs. unfold version_rejected.
  pose proof (split_length "." versionString) as Hcount.
  destruct (main_with_argument e w _ _ Hargs)
    as [[Hlen Hmain]|[(Hlen & _ & Hmain)|(Hlen & _ & Hmain)]];
    rewrite Hmain.
  - split; [lia|done].
  - split; [|lia]. by intros [= ?%app_inv_head].
  - split; [|lia]. intros Hrun.
    destruct (build_log e versionString w) as (evs & Hlog).
    rewrite Hrun in Hlog. cbn in Hlog. by apply app_inv_head in Hlog.
Qed.

Lemma version_rejected_iff_not_two_dots_witness :
  let e := sample_env [".."] "Color Selector" "\" in
  args e = ".." :: []
  ∧ (version_rejected e sample_checkout ↔ count_char "." ".." ≠ 2).
Proof.
  intros e.
  assert (args e = ".." :: []) as Hargs by reflexivity.
  split; [exact Hargs|].
  exact (version_rejected_iff_not_two_dots e sample_checkout ".." [] Hargs).
Defined.

(** ** More on the patcher *)

Lemma prefix_app_self s t : String.prefix s (s +:+ t) = true.
Proof.
  induction s as [|c s IH]; [apply prefix_nil|].
  rewrite append_cons. cbn. by destruct (ascii_dec c c).
Qed.

(** A string that contains [sub] somewhere contains it for [in]. *)
Lemma contains_app sub s t : Py.contains sub (s +:+ sub +:+ t) = true.
Proof.
  unfold Py.contains. induction s as [|c s IH].
  - change ("" +:+ sub +:+ t) with (sub +:+ t).
    destruct (sub +:+ t) eqn:E; cbn [Py.find]; rewrite <-?E, prefix_app_self; done.
  - rewrite append_cons. cbn [Py.find].
    destruct (String.prefix sub _); [done|].
    by destruct (Py.find sub (s +:+ sub +:+ t)).
Qed.

Lemma has_tag_replacement lead versionString :
  has_tag (replacement lead versionString).
Proof. apply (contains_app tag lead). Qed.

Lemma before_first_lt_replacement lead versionString :
  Py.find "<" lead = None →
  before_first_lt (replacement lead versionString) lead.
Proof. intros Hlead. split; [done|]. by eexists. Qed.

Lemma with_file_twice file c c' s :
  with_file file c' (with_file file c s) = with_file file c' s.
Proof. unfold with_file. cbn. by rewrite insert_insert_eq. Qed.

(** What the patcher does to the file system, whatever the file holds. *)
Lemma Update_fs versionString file w :
  let r := UpdateCsprojAssemblyVersion versionString file w in
  (files (fs w) !! file = None ∧ r.1 = Raised "IOError" ∧ fs r.2 = fs w
   ∧ log r.2 = log w ++ [ERead file])
  ∨ (∃ content, files (fs w) !! file = Some content
       ∧ Forall (λ x, ¬ has_tag x) (Py.readlines content)
       ∧ r.1 = Done () ∧ fs r.2 = fs w
       ∧ ∃ msg, log r.2 = log w ++ [ERead file; EPrint msg])
  ∨ (∃ content content', files (fs w) !! file = Some content
       ∧ r.1 = Done () ∧ fs r.2 = with_file file content' (fs w)
       ∧ log r.2 = log w ++ [ERead file; EWrite file content']).
Proof.
  intros r. subst r. destruct (files (fs w) !! file) as [content|] eqn:Hfile.
  - destruct (last (filter has_tag (Py.readlines content))) as [line|] eqn:Hlast.
    + right; right.
      destruct (Update_tag versionString _ _ _ _ Hfile Hlast)
        as (i & lead & _ & _ & Hrun).
      cbv zeta in Hrun. rewrite Hrun.
      eexists content, _. split; [done|]. split; [done|]. by split.
    + right; left. apply last_None in Hlast.
      rewrite (Update_no_tag _ _ _ _ Hfile Hlast).
      exists content. split; [done|]. split; [by apply filter_nil_Forall|].
      split; [done|]. split; [done|]. by eexists.
  - left. unfold UpdateCsprojAssemblyVersion.
    assert (read_lines file w = (Raised "IOError", emit [ERead file] w)) as Hread
      by (unfold read_lines; by rewrite Hfile).
    by rewrite (bind_Raised _ _ _ _ _ Hread).
Qed.

(** X4.  The patcher changes nothing but the content of the file it is
    given: directories and locks stay, every other file keeps its content,
    and no file appears or disappears.  It reads the file once and writes
    it at most once.  A file that does not exist is not created: the run
    of the patcher ends with the error of [open]. *)
Theorem patcher_touches_only_its_file versionString file w :
  let r := UpdateCsprojAssemblyVersion versionString file w in
  dirs (fs r.2) = dirs (fs w)
  ∧ locked (fs r.2) = locked (fs w)
  ∧ dom (files (fs r.2)) = dom (files (fs w))
  ∧ (∀ other, other ≠ file → files (fs r.2) !! other = files (fs w) !! other)
  ∧ (∃ evs, log r.2 = log w ++ ERead file :: evs
            ∧ (written evs = [] ∨ written evs = [file]))
  ∧ (files (fs w) !! file = None → r.1 = Raised "IOError" ∧ fs r.2 = fs w).
Proof.
  intros r. destruct (Update_fs versionString file w)
    as [(Hfile & Hr & Hfs & Hlog)
       |[(content & Hfile & _ & Hr & Hfs & msg & Hlog)
        |(content & content' & Hfile & Hr & Hfs & Hlog)]];
    fold r in Hr, Hfs, Hlog; rewrite Hfs, Hlog.
  - split_and!; try done. exists []. by split; [|left].
  - split_and!; try done.
    + exists [EPrint msg]. by split; [|left].
    + by rewrite Hfile.
  - split_and!; try done.
    + cbn. rewrite dom_insert_L.
      apply subseteq_union_1_L, singleton_subseteq_l, elem_of_dom. eauto.
    + intros other Hother. cbn. by rewrite lookup_insert_ne.
    + exists [EWrite file content']. by split; [|right].
    + by rewrite Hfile.
Qed.

Lemma writelines_app (pre post : list string) :
  Py.writelines (pre ++ post) = Py.writelines pre +:+ Py.writelines post.
Proof.
  induction pre as [|l pre IH]; [done|].
  by rewrite <-app_comm_cons, !writelines_cons, IH, append_assoc.
Qed.

(** Replacing a line by text without carriage return in a text without
    carriage return gives a text without carriage return. *)
Lemma writelines_replace_cr_free (pre post : list string) line new :
  Py.contains cr (Py.writelines (pre ++ line :: post)) = false →
  Py.contains cr new = false →
  Py.contains cr line = false
  ∧ Py.contains cr (Py.writelines (pre ++ new :: post)) = false.
Proof.
  rewrite !writelines_app, !writelines_cons, !contains_cr_app, !orb_false_iff.
  tauto.
Qed.

Lemma replacement_cr_free lead versionString :
  Py.contains cr lead = false → Py.contains cr versionString = false →
  Py.contains cr (replacement lead versionString) = false.
Proof.
  intros Hlead Hv. unfold replacement.
  by rewrite !contains_cr_app, Hlead, Hv.
Qed.

(** X5.  Patching a file that has one tagged line with one version and then
    with another leaves the file as patching it with the other version
    alone: the later version wins, and patching twice with the same
    version is the same as patching once.  The first version string must
    have neither newline nor carriage return in it; what the first run
    writes then comes back from the file, on a host of either family, as it
    was written, and that is what the second run reads. *)
Theorem later_version_wins version1 version2 file w raw line :
  files (fs w) !! file = Some (universal_newlines raw) →
  filter has_tag (Py.readlines (universal_newlines raw)) = [line] →
  Py.contains nl version1 = false →
  Py.contains cr version1 = false →
  let once := UpdateCsprojAssemblyVersion version2 file w in
  let first := UpdateCsprojAssemblyVersion version1 file w in
  let twice := UpdateCsprojAssemblyVersion version2 file first.2 in
  first.1 = Done () ∧ twice.1 = Done () ∧ fs twice.2 = fs once.2
  ∧ ∃ text1,
      log first.2 = log w ++ [ERead file; EWrite file text1]
      ∧ files (fs first.2) !! file = Some text1
      ∧ ∀ linesep, linesep = nl ∨ linesep = crlf →
          universal_newlines (to_linesep linesep text1) = text1.
Proof.
  intros Hfile Hone Hversion Hversion' once first twice.
  set (content := universal_newlines raw) in *.
  assert (line ∈ Py.readlines content) as Hin.
  { eapply (list_elem_of_filter has_tag). rewrite Hone. by left. }
  destruct (split_first _ _ Hin) as (pre & post & Hsplit & Hfresh).
  assert (last (filter has_tag (Py.readlines content)) = Some line) as Hlast
    by by rewrite Hone.
  destruct (Update_split version1 _ _ _ _ _ _ Hfile Hlast Hsplit Hfresh)
    as (lead & Hlead & Hfirst).
  destruct (Update_split version2 _ _ _ _ _ _ Hfile Hlast Hsplit Hfresh)
    as (lead2 & Hlead2 & Honce).
  pose proof (before_first_lt_unique _ _ _ Hlead2 Hlead) as ->.
  cbv zeta in Hfirst, Honce. fold first in Hfirst. fold once in Honce.
  set (new := replacement lead version1) in *.
  set (text1 := pre ++ new :: post) in *.
  rewrite Hsplit in Hone.
  destruct (last_tag_split pre post [] line Hone) as [Hpre Hpost];
    [apply not_elem_of_nil|].
  (* the file after the first run *)
  assert (files (fs first.2) !! file = Some (Py.writelines text1)) as Hfile1.
  { rewrite Hfirst. cbn. apply lookup_insert_eq. }
  assert (Py.contains cr (Py.writelines text1) = false) as Hcr1.
  { assert (Py.contains cr (Py.writelines (pre ++ line :: post)) = false) as Hcr.
    { rewrite <-Hsplit, writelines_readlines. apply universal_newlines_cr_free. }
    assert (Py.contains cr lead = false) as Hcrlead.
    { destruct (writelines_replace_cr_free pre post line "" Hcr eq_refl) as [Hline _].
      destruct Hlead as (_ & rest & ->).
      rewrite contains_cr_app in Hline. by apply orb_false_elim in Hline as [? _]. }
    apply (writelines_replace_cr_free pre post line new Hcr).
    by apply replacement_cr_free. }
  assert (Py.readlines (Py.writelines text1) = text1) as Hread1.
  { apply readlines_writelines.
    pose proof (readlines_ok content) as Hok. rewrite Hsplit in Hok.
    apply (lines_ok_replace _ _ _ _ Hok).
    apply replacement_complete; [|done].
    apply (before_first_lt_no_newline line); [|done].
    apply (lines_ok_elem _ _ (readlines_ok content) Hin). }
  assert (last (filter has_tag (Py.readlines (Py.writelines text1))) = Some new)
    as Hlast1.
  { rewrite Hread1. unfold text1.
    rewrite filter_app, filter_cons_True by apply has_tag_replacement.
    rewrite Hpre. apply filter_nil_Forall in Hpost. by rewrite Hpost. }
  assert (new ∉ pre) as Hfresh1.
  { intros Hnew. apply filter_nil_Forall in Hpre.
    rewrite Forall_forall in Hpre. apply (Hpre new Hnew), has_tag_replacement. }
  destruct (Update_split version2 _ _ _ _ _ _ Hfile1 Hlast1 Hread1 Hfresh1)
    as (lead1 & Hlead1 & Htwice).
  assert (before_first_lt new lead) as Hnew
    by (apply before_first_lt_replacement; by destruct Hlead).
  pose proof (before_first_lt_unique _ _ _ Hlead1 Hnew) as ->.
  cbv zeta in Htwice. fold twice in Htwice.
  split; [by rewrite Hfirst|]. split; [by rewrite Htwice|]. split.
  { rewrite Htwice, Honce. cbn [fst snd fs]. rewrite Hfirst. cbn [snd fs].
    apply with_file_twice. }
  exists (Py.writelines text1). split; [by rewrite Hfirst|]. split; [done|].
  intros linesep Hsep. by apply universal_newlines_to_linesep.
Qed.

Lemma later_version_wins_witness :
  let w := one_file "a.csproj" (universal_newlines sample_crlf) in
  let line := "  <AssemblyVersion>1.0.0</AssemblyVersion>" +:+ nl in
  let once := UpdateCsprojAssemblyVersion "3.0.0" "a.csproj" w in
  let first := UpdateCsprojAssemblyVersion "2.1.3" "a.csproj" w in
  let twice := UpdateCsprojAssemblyVersion "3.0.0" "a.csproj" first.2 in
  files (fs w) !! "a.csproj" = Some (universal_newlines sample_crlf)
  ∧ filter has_tag (Py.readlines (universal_newlines sample_crlf)) = [line]
  ∧ Py.contains nl "2.1.3" = false
  ∧ Py.contains cr "2.1.3" = false
  ∧ first.1 = Done () ∧ twice.1 = Done () ∧ fs twice.2 = fs once.2
  ∧ ∃ text1,
      log first.2 = log w ++ [ERead "a.csproj"; EWrite "a.csproj" text1]
      ∧ files (fs first.2) !! "a.csproj" = Some text1
      ∧ ∀ linesep, linesep = nl ∨ linesep = crlf →
          universal_newlines (to_linesep linesep text1) = text1.
Proof.
  intros w line once first twice.
  assert (files (fs w) !! "a.csproj" = Some (universal_newlines sample_crlf)) as Hfile
    by apply lookup_singleton_eq.
  assert (filter has_tag (Py.readlines (universal_newlines sample_crlf)) = [line])
    as Hone by reflexivity.
  assert (Py.contains nl "2.1.3" = false) as Hversion by reflexivity.
  assert (Py.contains cr "2.1.3" = false) as Hversion' by reflexivity.
  split; [exact Hfile|]. split; [exact Hone|].
  split; [exact Hversion|]. split; [exact Hversion'|].
  exact (later_version_wins "2.1.3" "3.0.0" "a.csproj" w sample_crlf line
           Hfile Hone Hversion Hversion').
Defined.

(** ** More on the cleaning passes *)

Lemma beneath_append s p q : beneath (s +:+ p) (s +:+ q) = beneath p q.
Proof. unfold beneath. by rewrite append_assoc, prefix_append. Qed.

Lemma colorSelectorCsproj_eq e :
  colorSelectorCsproj e
  = currentDirectory e +:+ "\ColorSelector\ColorSelector.csproj".
Proof.
  unfold colorSelectorCsproj, colorSelectorDir.
  by rewrite !format_path, !append_assoc.
Qed.

Lemma colorSelectorStandaloneCsproj_eq e :
  colorSelectorStandaloneCsproj e
  = currentDirectory e +:+ "\ColorSelectorTestApp\ColorSelectorStandalone.csproj".
Proof.
  unfold colorSelectorStandaloneCsproj, colorSelectorStandaloneDir.
  by rewrite !format_path, !append_assoc.
Qed.

Lemma colorSelectorDir_eq e :
  colorSelectorDir e = currentDirectory e +:+ "\ColorSelector".
Proof. unfold colorSelectorDir. by rewrite format_path. Qed.

Lemma colorSelectorStandaloneDir_eq e :
  colorSelectorStandaloneDir e = currentDirectory e +:+ "\ColorSelectorTestApp".
Proof. unfold colorSelectorStandaloneDir. by rewrite format_path. Qed.

(** The project files and the project directories lie outside the trees
    that a pass removes. *)
Lemma projects_outside_targets e p :
  p ∈ clean_targets e →
  beneath p (colorSelectorCsproj e) = false
  ∧ beneath p (colorSelectorStandaloneCsproj e) = false
  ∧ within p (colorSelectorDir e) = false
  ∧ within p (colorSelectorStandaloneDir e) = false.
Proof.
  rewrite clean_targets_eq, colorSelectorCsproj_eq, colorSelectorStandaloneCsproj_eq,
    colorSelectorDir_eq, colorSelectorStandaloneDir_eq.
  cbn [fmap list_fmap]. rewrite !elem_of_cons, elem_of_nil.
  intros [->|[->|[->|[->|[]]]]]; by rewrite !beneath_append, !within_append.
Qed.

Lemma csproj_distinct e : colorSelectorCsproj e ≠ colorSelectorStandaloneCsproj e.
Proof.
  rewrite colorSelectorCsproj_eq, colorSelectorStandaloneCsproj_eq.
  by intros ?%(inj _).
Qed.

Lemma without_tree_files_keep p s q :
  beneath p q = false → files (without_tree p s) !! q = files s !! q.
Proof.
  intros Hq. cbn. rewrite map_lookup_filter.
  destruct (files s !! q) as [x|]; [|done]. cbn.
  by rewrite option_guard_True.
Qed.

(** One target of a pass: looked at, and removed if it is a directory,
    unless the system refuses. *)
Lemma clean_pass_cons p ps w :
  clean_pass (p :: ps) w
  = if bool_decide (p ∈ dirs (fs w)) then
      if decide (refuses (fs w) p)
      then (Raised "OSError", emit [EIsdir p; ERmtree p] w)
      else clean_pass ps {| fs := without_tree p (fs w);
                            log := log w ++ [EIsdir p; ERmtree p] |}
    else clean_pass ps (emit [EIsdir p] w).
Proof.
  cbn [clean_pass]. unfold mbind at 1, M_bind. unfold mbind at 1, M_bind.
  cbn [isdir fs emit]. destruct (bool_decide (p ∈ dirs (fs w))); cbn [when]; [|done].
  unfold rmtree. cbn [fs log emit].
  destruct (decide (refuses (fs w) p)); unfold emit; cbn [fs log];
    by rewrite <-app_assoc.
Qed.

(** What a pass leaves alone, however it ends. *)
Lemma clean_pass_frame targets w :
  locked (fs (clean_pass targets w).2) = locked (fs w)
  ∧ (∀ q, (∀ p, p ∈ targets → within p q = false) →
          q ∈ dirs (fs (clean_pass targets w).2) ↔ q ∈ dirs (fs w))
  ∧ (∀ q, (∀ p, p ∈ targets → beneath p q = false) →
          files (fs (clean_pass targets w).2) !! q = files (fs w) !! q).
Proof.
  revert w. induction targets as [|p ps IH]; intros w; [done|].
  rewrite clean_pass_cons. destruct (bool_decide (p ∈ dirs (fs w))).
  - destruct (decide (refuses (fs w) p)); [done|].
    destruct (IH {| fs := without_tree p (fs w);
                    log := log w ++ [EIsdir p; ERmtree p] |})
      as (Hlocked & Hdirs & Hfiles).
    split; [done|]. split.
    + intros q Hq. rewrite Hdirs by (intros; apply Hq; by right).
      cbn [fs]. rewrite without_tree_dirs.
      specialize (Hq p (list_elem_of_here _ _)). tauto.
    + intros q Hq. rewrite Hfiles by (intros; apply Hq; by right).
      cbn [fs]. apply without_tree_files_keep, Hq. by left.
  - destruct (IH (emit [EIsdir p] w)) as (Hlocked & Hdirs & Hfiles).
    split; [done|]. split.
    + intros q Hq. apply Hdirs. intros; apply Hq; by right.
    + intros q Hq. apply Hfiles. intros; apply Hq; by right.
Qed.

(** X6.  Whatever a cleaning pass finds and however it ends, it leaves the
    locks, every directory that is neither a target nor in a target, and
    every file that is in no target as they are; the two project
    directories and the two project files are among them. *)
Theorem cleaning_keeps_everything_else e w :
  let w' := (CleanDirectories (colorSelectorDir e) (colorSelectorStandaloneDir e) w).2 in
  locked (fs w') = locked (fs w)
  ∧ (∀ q, (∀ p, p ∈ clean_targets e → within p q = false) →
          q ∈ dirs (fs w') ↔ q ∈ dirs (fs w))
  ∧ (∀ q, (∀ p, p ∈ clean_targets e → beneath p q = false) →
          files (fs w') !! q = files (fs w) !! q)
  ∧ (colorSelectorDir e ∈ dirs (fs w') ↔ colorSelectorDir e ∈ dirs (fs w))
  ∧ (colorSelectorStandaloneDir e ∈ dirs (fs w')
     ↔ colorSelectorStandaloneDir e ∈ dirs (fs w))
  ∧ files (fs w') !! colorSelectorCsproj e = files (fs w) !! colorSelectorCsproj e
  ∧ files (fs w') !! colorSelectorStandaloneCsproj e
    = files (fs w) !! colorSelectorStandaloneCsproj e.
Proof.
  cbv zeta. rewrite CleanDirectories_pass.
  destruct (clean_pass_frame (clean_targets e) w) as (Hlocked & Hdirs & Hfiles).
  split; [done|]. split; [done|]. split; [done|].
  split_and!.
  - apply Hdirs. intros p Hp.
    by destruct (projects_outside_targets e p Hp) as (_ & _ & ? & _).
  - apply Hdirs. intros p Hp.
    by destruct (projects_outside_targets e p Hp) as (_ & _ & _ & ?).
  - apply Hfiles. intros p Hp.
    by destruct (projects_outside_targets e p Hp) as (? & _).
  - apply Hfiles. intros p Hp.
    by destruct (projects_outside_targets e p Hp) as (_ & ? & _).
Qed.

(** X7.  A cleaning pass that meets no refusal leaves none of its targets
    behind, so a pass made right after it only looks at the four targets
    and removes nothing. *)
Theorem second_pass_only_looks e w :
  (∀ p, p ∈ clean_targets e → p ∈ dirs (fs w) → ¬ refuses (fs w) p) →
  ∃ w1,
    CleanDirectories (colorSelectorDir e) (colorSelectorStandaloneDir e) w
    = (Done (), w1)
    ∧ (∀ p, p ∈ clean_targets e → p ∉ dirs (fs w1))
    ∧ CleanDirectories (colorSelectorDir e) (colorSelectorStandaloneDir e) w1
      = (Done (), emit (EIsdir <$> clean_targets e) w1).
Proof.
  intros Hfree. pose proof (clean_targets_apart e) as Hapart.
  rewrite CleanDirectories_pass. destruct w as [s l].
  rewrite clean_pass_ok by done. eexists. split; [done|].
  assert (∀ p, p ∈ clean_targets e → p ∉ dirs (pass_fs (clean_targets e) s)) as Hgone.
  { intros p Hp. by apply pass_fs_removed. }
  split; [done|].
  rewrite CleanDirectories_pass, clean_pass_ok; [|done|].
  - by destruct (pass_fs_skip _ _ Hgone) as [-> ->].
  - intros p Hp Hdir. by destruct (Hgone p Hp).
Qed.

Lemma second_pass_only_looks_witness :
  let e := sample_env ["2.1.3"] "Color Selector" "\" in
  let w := sample_checkout in
  (∀ p, p ∈ clean_targets e → p ∈ dirs (fs w) → ¬ refuses (fs w) p)
  ∧ ∃ w1,
      CleanDirectories (colorSelectorDir e) (colorSelectorStandaloneDir e) w
      = (Done (), w1)
      ∧ (∀ p, p ∈ clean_targets e → p ∉ dirs (fs w1))
      ∧ CleanDirectories (colorSelectorDir e) (colorSelectorStandaloneDir e) w1
        = (Done (), emit (EIsdir <$> clean_targets e) w1).
Proof.
  intros e w.
  assert (∀ p, p ∈ clean_targets e → p ∈ dirs (fs w) → ¬ refuses (fs w) p) as Hfree.
  { intros p _ _ (q & Hq & _). by apply elem_of_empty in Hq. }
  split; [exact Hfree|].
  exact (second_pass_only_looks e w Hfree).
Defined.

(** ** Whole runs *)

Lemma pass_fs_files_keep targets s q :
  (∀ p, p ∈ targets → beneath p q = false) →
  files (pass_fs targets s) !! q = files s !! q.
Proof.
  revert s. induction targets as [|p ps IH]; intros s Hq; [done|].
  rewrite pass_fs_cons, IH by (intros; apply Hq; by right).
  destruct (bool_decide _); [|done].
  apply without_tree_files_keep, Hq. by left.
Qed.

Lemma pass_fs_dirs_keep targets s q :
  (∀ p, p ∈ targets → within p q = false) →
  q ∈ dirs (pass_fs targets s) ↔ q ∈ dirs s.
Proof.
  revert s. induction targets as [|p ps IH]; intros s Hq; [done|].
  rewrite pass_fs_cons, IH by (intros; apply Hq; by right).
  destruct (bool_decide _); [|done].
  rewrite without_tree_dirs. specialize (Hq p (list_elem_of_here _ _)). tauto.
Qed.

Lemma with_file_same file content s :
  files s !! file = Some content → with_file file content s = s.
Proof. intros H. destruct s. unfold with_file. cbn in *. by rewrite insert_id. Qed.

(** On a file that exists the patcher ends normally and leaves the file
    patched. *)
Lemma Update_patches versionString file w content :
  files (fs w) !! file = Some content →
  ∃ content' evs,
    patches versionString content content'
    ∧ UpdateCsprojAssemblyVersion versionString file w
      = (Done (), {| fs := with_file file content' (fs w); log := log w ++ evs |}).
Proof.
  intros Hfile.
  destruct (last (filter has_tag (Py.readlines content))) as [line|] eqn:Hlast.
  - destruct (Update_tag versionString _ _ _ _ Hfile Hlast)
      as (i & lead & Hi & Hlead & Hrun).
    cbv zeta in Hrun. eexists _, _. split; [|exact Hrun].
    right. by exists line, i, lead.
  - apply last_None in Hlast. rewrite (Update_no_tag _ _ _ _ Hfile Hlast).
    exists content. eexists. split.
    + left. split; [by apply filter_nil_Forall|done].
    + by rewrite with_file_same.
Qed.

(** The stages of the script when neither pass meets a refusal: the
    patching starts from the file system the second pass leaves. *)
Lemma build_cleaned e versionString w :
  let T := clean_targets e in
  let s2 := during_sleep e (pass_fs T (fs w)) in
  (∀ p, p ∈ T → p ∈ dirs (fs w) → ¬ refuses (fs w) p) →
  (∀ p, p ∈ T → p ∈ dirs s2 → ¬ refuses s2 p) →
  build e versionString w
  = (UpdateCsprojAssemblyVersion versionString (colorSelectorCsproj e) ;;
     UpdateCsprojAssemblyVersion versionString (colorSelectorStandaloneCsproj e) ;;
     print "done.")
      {| fs := pass_fs T s2;
         log := log w ++ [EPrint "Cleaning bin and obj directories ..."]
                ++ pass_events T (fs w) ++ [ESleep 3]
                ++ pass_events T s2
                ++ [EPrint "done."; EPrint "Setting version {0} in .csproj files ..."] |}.
Proof.
  intros T s2 Hfree1 Hfree2. rewrite build_first_pass by done.
  erewrite bind_Done; last first.
  { rewrite CleanDirectories_pass.
    apply clean_pass_ok; [apply clean_targets_apart|done]. }
  erewrite bind_Done by reflexivity. erewrite bind_Done by reflexivity.
  unfold emit. cbn [fs log]. by rewrite <-!app_assoc.
Qed.

(** The project files when the patching starts are the ones the run
    started with, if other programs leave them alone during the sleep. *)
Lemma project_file_after_cleaning e s file :
  (file = colorSelectorCsproj e ∨ file = colorSelectorStandaloneCsproj e) →
  (∀ s', files (during_sleep e s') !! file = files s' !! file) →
  let T := clean_targets e in
  files (pass_fs T (during_sleep e (pass_fs T s))) !! file = files s !! file.
Proof.
  intros Hfile Hsleep T.
  assert (∀ p, p ∈ T → beneath p file = false) as Hout.
  { intros p Hp. destruct (projects_outside_targets e p Hp) as (? & ? & _).
    by destruct Hfile as [->| ->]. }
  by rewrite pass_fs_files_keep, Hsleep, pass_fs_files_keep.
Qed.

(** X8.  A run in which no removal is refused and no other program touches
    the two project files during the sleep ends normally when both project
    files exist: each of them then holds what the patcher makes of the
    content it had when the run started, the directories are the ones the
    second pass left, and the last thing printed is [done.]. *)
Theorem whole_run_patches_both_files e w versionString rest content1 content2 :
  args e = versionString :: rest →
  length (Py.split "." versionString) = 3 →
  currentDirectoryName e = "Color Selector" →
  let T := clean_targets e in
  let s2 := during_sleep e (pass_fs T (fs w)) in
  (∀ p, p ∈ T → p ∈ dirs (fs w) → ¬ refuses (fs w) p) →
  (∀ p, p ∈ T → p ∈ dirs s2 → ¬ refuses s2 p) →
  (∀ s, files (during_sleep e s) !! colorSelectorCsproj e
        = files s !! colorSelectorCsproj e) →
  (∀ s, files (during_sleep e s) !! colorSelectorStandaloneCsproj e
        = files s !! colorSelectorStandaloneCsproj e) →
  files (fs w) !! colorSelectorCsproj e = Some content1 →
  files (fs w) !! colorSelectorStandaloneCsproj e = Some content2 →
  ∃ content1' content2',
    patches versionString content1 content1'
    ∧ patches versionString content2 content2'
    ∧ (main e w).1 = Done ()
    ∧ files (fs (main e w).2) !! colorSelectorCsproj e = Some content1'
    ∧ files (fs (main e w).2) !! colorSelectorStandaloneCsproj e = Some content2'
    ∧ dirs (fs (main e w).2) = dirs (pass_fs T s2)
    ∧ last (log (main e w).2) = Some (EPrint "done.").
Proof.
  intros Hargs Hlen Hname T s2 Hfree1 Hfree2 Hsleep1 Hsleep2 Hfile1 Hfile2.
  rewrite (main_build _ _ _ _ Hargs Hlen Hname), build_cleaned by done.
  fold T s2. set (cleaned := {| fs := pass_fs T s2; log := _ |}).
  assert (files (fs cleaned) !! colorSelectorCsproj e = Some content1) as Hc1.
  { unfold cleaned, s2, T. cbn [fs].
    rewrite project_file_after_cleaning; [done|by left|done]. }
  assert (files (fs cleaned) !! colorSelectorStandaloneCsproj e = Some content2) as Hc2.
  { unfold cleaned, s2, T. cbn [fs].
    rewrite project_file_after_cleaning; [done|by right|done]. }
  destruct (Update_patches versionString _ _ _ Hc1) as (content1' & evs1 & Hp1 & Hrun1).
  erewrite bind_Done by exact Hrun1.
  set (w1 := {| fs := with_file _ content1' _; log := _ |}) in *.
  assert (files (fs w1) !! colorSelectorStandaloneCsproj e = Some content2) as Hc2'.
  { unfold w1. cbn. rewrite lookup_insert_ne by apply csproj_distinct. done. }
  destruct (Update_patches versionString _ _ _ Hc2') as (content2' & evs2 & Hp2 & Hrun2).
  erewrite bind_Done by exact Hrun2.
  exists content1', content2'. split; [done|]. split; [done|].
  unfold print, emit. cbn [fst snd fs log with_file files dirs].
  split; [done|]. split.
  { rewrite lookup_insert_ne by (apply not_eq_sym, csproj_distinct).
    apply lookup_insert_eq. }
  split; [apply lookup_insert_eq|]. split; [done|]. apply last_snoc.
Qed.

(** X9.  The two project files are patched one after the other and nothing
    is undone: when the second project file does not exist, the run ends
    with the error of [open], and the first project file is left with the
    new version. *)
Theorem missing_second_file_keeps_first_patched e w versionString rest content1 :
  args e = versionString :: rest →
  length (Py.split "." versionString) = 3 →
  currentDirectoryName e = "Color Selector" →
  let T := clean_targets e in
  let s2 := during_sleep e (pass_fs T (fs w)) in
  (∀ p, p ∈ T → p ∈ dirs (fs w) → ¬ refuses (fs w) p) →
  (∀ p, p ∈ T → p ∈ dirs s2 → ¬ refuses s2 p) →
  (∀ s, files (during_sleep e s) !! colorSelectorCsproj e
        = files s !! colorSelectorCsproj e) →
  (∀ s, files (during_sleep e s) !! colorSelectorStandaloneCsproj e
        = files s !! colorSelectorStandaloneCsproj e) →
  files (fs w) !! colorSelectorCsproj e = Some content1 →
  files (fs w) !! colorSelectorStandaloneCsproj e = None →
  ∃ content1',
    patches versionString content1 content1'
    ∧ (main e w).1 = Raised "IOError"
    ∧ files (fs (main e w).2) !! colorSelectorCsproj e = Some content1'
    ∧ files (fs (main e w).2) !! colorSelectorStandaloneCsproj e = None.
Proof.
  intros Hargs Hlen Hname T s2 Hfree1 Hfree2 Hsleep1 Hsleep2 Hfile1 Hfile2.
  rewrite (main_build _ _ _ _ Hargs Hlen Hname), build_cleaned by done.
  fold T s2. set (cleaned := {| fs := pass_fs T s2; log := _ |}).
  assert (files (fs cleaned) !! colorSelectorCsproj e = Some content1) as Hc1.
  { unfold cleaned, s2, T. cbn [fs].
    rewrite project_file_after_cleaning; [done|by left|done]. }
  assert (files (fs cleaned) !! colorSelectorStandaloneCsproj e = None) as Hc2.
  { unfold cleaned, s2, T. cbn [fs].
    rewrite project_file_after_cleaning; [done|by right|done]. }
  destruct (Update_patches versionString _ _ _ Hc1) as (content1' & evs1 & Hp1 & Hrun1).
  erewrite bind_Done by exact Hrun1.
  set (w1 := {| fs := with_file _ content1' _; log := _ |}) in *.
  assert (files (fs w1) !! colorSelectorStandaloneCsproj e = None) as Hc2'.
  { unfold w1. cbn. rewrite lookup_insert_ne by apply csproj_distinct. done. }
  destruct (Update_fs versionString (colorSelectorStandaloneCsproj e) w1)
    as [(_ & Hr & Hfs & _)|[(c & Hsome & _)|(c & c' & Hsome & _)]];
    [|congruence|congruence].
  destruct (UpdateCsprojAssemblyVersion _ (colorSelectorStandaloneCsproj e) w1)
    as [r w2] eqn:Hrun2. cbn [fst snd] in Hr, Hfs. subst r.
  erewrite bind_Raised by exact Hrun2.
  exists content1'. split; [done|]. split; [done|]. cbn [snd]. rewrite Hfs.
  split; [|done]. unfold w1. cbn. apply lookup_insert_eq.
Qed.

Lemma nothing_locked_nothing_refused s p : locked s = ∅ → ¬ refuses s p.
Proof. intros Hs (q & Hq & _). rewrite Hs in Hq. by apply elem_of_empty in Hq. Qed.

Lemma whole_run_patches_both_files_witness :
  let e := sample_env ["2.1.3"] "Color Selector" "\" in
  let w := sample_checkout in
  let T := clean_targets e in
  let s2 := during_sleep e (pass_fs T (fs w)) in
  args e = "2.1.3" :: []
  ∧ length (Py.split "." "2.1.3") = 3
  ∧ currentDirectoryName e = "Color Selector"
  ∧ (∀ p, p ∈ T → p ∈ dirs (fs w) → ¬ refuses (fs w) p)
  ∧ (∀ p, p ∈ T → p ∈ dirs s2 → ¬ refuses s2 p)
  ∧ (∀ s, files (during_sleep e s) !! colorSelectorCsproj e
          = files s !! colorSelectorCsproj e)
  ∧ (∀ s, files (during_sleep e s) !! colorSelectorStandaloneCsproj e
          = files s !! colorSelectorStandaloneCsproj e)
  ∧ files (fs w) !! colorSelectorCsproj e = Some sample_project
  ∧ files (fs w) !! colorSelectorStandaloneCsproj e = Some sample_no_tag
  ∧ ∃ content1' content2',
      patches "2.1.3" sample_project content1'
      ∧ patches "2.1.3" sample_no_tag content2'
      ∧ (main e w).1 = Done ()
      ∧ files (fs (main e w).2) !! colorSelectorCsproj e = Some content1'
      ∧ files (fs (main e w).2) !! colorSelectorStandaloneCsproj e = Some content2'
      ∧ dirs (fs (main e w).2) = dirs (pass_fs T s2)
      ∧ last (log (main e w).2) = Some (EPrint "done.").
Proof.
  intros e w T s2.
  assert (args e = "2.1.3" :: []) as Hargs by reflexivity.
  assert (length (Py.split "." "2.1.3") = 3) as Hlen by reflexivity.
  assert (currentDirectoryName e = "Color Selector") as Hname by reflexivity.
  assert (∀ p, p ∈ T → p ∈ dirs (fs w) → ¬ refuses (fs w) p) as Hfree1
    by (intros p _ _; by apply nothing_locked_nothing_refused).
  assert (∀ p, p ∈ T → p ∈ dirs s2 → ¬ refuses s2 p) as Hfree2
    by (intros p _ _; apply nothing_locked_nothing_refused, pass_fs_locked).
  assert (∀ s, files (during_sleep e s) !! colorSelectorCsproj e
               = files s !! colorSelectorCsproj e) as Hsleep1 by reflexivity.
  assert (∀ s, files (during_sleep e s) !! colorSelectorStandaloneCsproj e
               = files s !! colorSelectorStandaloneCsproj e) as Hsleep2 by reflexivity.
  assert (files (fs w) !! colorSelectorCsproj e = Some sample_project) as Hfile1
    by (vm_compute; reflexivity).
  assert (files (fs w) !! colorSelectorStandaloneCsproj e = Some sample_no_tag) as Hfile2
    by (vm_compute; reflexivity).
  split; [exact Hargs|]. split; [exact Hlen|]. split; [exact Hname|].
  split; [exact Hfree1|]. split; [exact Hfree2|].
  split; [exact Hsleep1|]. split; [exact Hsleep2|].
  split; [exact Hfile1|]. split; [exact Hfile2|].
  exact (whole_run_patches_both_files e w "2.1.3" [] sample_project sample_no_tag
           Hargs Hlen Hname Hfree1 Hfree2 Hsleep1 Hsleep2 Hfile1 Hfile2).
Defined.

Lemma missing_second_file_keeps_first_patched_witness :
  let e := sample_env ["2.1.3"] "Color Selector" "\" in
  let w := sample_half_checkout in
  let T := clean_targets e in
  let s2 := during_sleep e (pass_fs T (fs w)) in
  args e = "2.1.3" :: []
  ∧ length (Py.split "." "2.1.3") = 3
  ∧ currentDirectoryName e = "Color Selector"
  ∧ (∀ p, p ∈ T → p ∈ dirs (fs w) → ¬ refuses (fs w) p)
  ∧ (∀ p, p ∈ T → p ∈ dirs s2 → ¬ refuses s2 p)
  ∧ (∀ s, files (during_sleep e s) !! colorSelectorCsproj e
          = files s !! colorSelectorCsproj e)
  ∧ (∀ s, files (during_sleep e s) !! colorSelectorStandaloneCsproj e
          = files s !! colorSelectorStandaloneCsproj e)
  ∧ files (fs w) !! colorSelectorCsproj e = Some sample_project
  ∧ files (fs w) !! colorSelectorStandaloneCsproj e = None
  ∧ ∃ content1',
      patches "2.1.3" sample_project content1'
      ∧ (main e w).1 = Raised "IOError"
      ∧ files (fs (main e w).2) !! colorSelectorCsproj e = Some content1'
      ∧ files (fs (main e w).2) !! colorSelectorStandaloneCsproj e = None.
Proof.
  intros e w T s2.
  assert (args e = "2.1.3" :: []) as Hargs by reflexivity.
  assert (length (Py.split "." "2.1.3") = 3) as Hlen by reflexivity.
  assert (currentDirectoryName e = "Color Selector") as Hname by reflexivity.
  assert (∀ p, p ∈ T → p ∈ dirs (fs w) → ¬ refuses (fs w) p) as Hfree1
    by (intros p _ _; by apply nothing_locked_nothing_refused).
  assert (∀ p, p ∈ T → p ∈ dirs s2 → ¬ refuses s2 p) as Hfree2
    by (intros p _ _; apply nothing_locked_nothing_refused, pass_fs_locked).
  assert (∀ s, files (during_sleep e s) !! colorSelectorCsproj e
               = files s !! colorSelectorCsproj e) as Hsleep1 by reflexivity.
  assert (∀ s, files (during_sleep e s) !! colorSelectorStandaloneCsproj e
               = files s !! colorSelectorStandaloneCsproj e) as Hsleep2 by reflexivity.
  assert (files (fs w) !! colorSelectorCsproj e = Some sample_project) as Hfile1
    by (vm_compute; reflexivity).
  assert (files (fs w) !! colorSelectorStandaloneCsproj e = None) as Hfile2
    by (vm_compute; reflexivity).
  split; [exact Hargs|]. split; [exact Hlen|]. split; [exact Hname|].
  split; [exact Hfree1|]. split; [exact Hfree2|].
  split; [exact Hsleep1|]. split; [exact Hsleep2|].
  split; [exact Hfile1|]. split; [exact Hfile2|].
  exact (missing_second_file_keeps_first_patched e w "2.1.3" [] sample_project
           Hargs Hlen Hname Hfree1 Hfree2 Hsleep1 Hsleep2 Hfile1 Hfile2).
Defined.

Lemma cleaning_not_written evs :
  Forall (λ ev, cleaning ev = true) evs → written evs = [] ∧ printed evs = [].
Proof.
  induction 1 as [|ev evs Hev _ [IH1 IH2]]; [done|].
  destruct ev; try done; cbn; by rewrite ?IH1, ?IH2.
Qed.

(** X10.  A removal that is refused in the first pass ends the run before
    the sleep and before the patching: beyond the announcement the log
    holds only the looks and removals of the pass, nothing is printed or
    written after it, and both project files are as the run found them. *)
Theorem refused_removal_leaves_project_files e w versionString rest p :
  args e = versionString :: rest →
  length (Py.split "." versionString) = 3 →
  currentDirectoryName e = "Color Selector" →
  p ∈ clean_targets e → p ∈ dirs (fs w) → refuses (fs w) p →
  (main e w).1 = Raised "OSError"
  ∧ files (fs (main e w).2) !! colorSelectorCsproj e
    = files (fs w) !! colorSelectorCsproj e
  ∧ files (fs (main e w).2) !! colorSelectorStandaloneCsproj e
    = files (fs w) !! colorSelectorStandaloneCsproj e
  ∧ ∃ evs, log (main e w).2
           = log w ++ EPrint "Cleaning bin and obj directories ..." :: evs
           ∧ Forall (λ ev, cleaning ev = true) evs
           ∧ written evs = [] ∧ printed evs = [].
Proof.
  intros Hargs Hlen Hname Hp Hdir Href.
  rewrite (main_build _ _ _ _ Hargs Hlen Hname). unfold build.
  erewrite bind_Done by reflexivity.
  set (w1 := emit [EPrint "Cleaning bin and obj directories ..."] w).
  pose proof (clean_pass_refused (clean_targets e) (fs w) (log w1) p
                (clean_targets_apart e) Hp Hdir Href) as Hraised.
  destruct (clean_pass_frame (clean_targets e) w1) as (_ & _ & Hfiles).
  destruct (clean_pass_emits (clean_targets e) w1) as (evs & Hlog & Hevs).
  change {| fs := fs w; log := log w1 |} with w1 in Hraised.
  destruct (clean_pass (clean_targets e) w1) as [r w'] eqn:Hpass.
  cbn [fst snd] in *. subst r.
  erewrite bind_Raised by (rewrite CleanDirectories_pass; exact Hpass).
  cbn [fst snd]. split; [done|].
  split.
  { apply Hfiles. intros q Hq.
    by destruct (projects_outside_targets e q Hq) as (? & _). }
  split.
  { apply Hfiles. intros q Hq.
    by destruct (projects_outside_targets e q Hq) as (_ & ? & _). }
  exists evs. rewrite Hlog. unfold w1. cbn. rewrite <-app_assoc.
  split; [done|]. split; [done|]. by apply cleaning_not_written.
Qed.

Lemma refused_removal_leaves_project_files_witness :
  let e := sample_env ["2.1.3"] "Color Selector" "\" in
  let w := with_locked
             {[ "C:\work\Color Selector\ColorSelector\bin\Debug\ColorSelector.dll" ]}
             sample_checkout in
  let p := "C:\work\Color Selector\ColorSelector\bin" in
  args e = "2.1.3" :: []
  ∧ length (Py.split "." "2.1.3") = 3
  ∧ currentDirectoryName e = "Color Selector"
  ∧ p ∈ clean_targets e ∧ p ∈ dirs (fs w) ∧ refuses (fs w) p
  ∧ (main e w).1 = Raised "OSError"
  ∧ files (fs (main e w).2) !! colorSelectorCsproj e
    = files (fs w) !! colorSelectorCsproj e
  ∧ files (fs (main e w).2) !! colorSelectorStandaloneCsproj e
    = files (fs w) !! colorSelectorStandaloneCsproj e
  ∧ ∃ evs, log (main e w).2
           = log w ++ EPrint "Cleaning bin and obj directories ..." :: evs
           ∧ Forall (λ ev, cleaning ev = true) evs
           ∧ written evs = [] ∧ printed evs = [].
Proof.
  intros e w p.
  assert (args e = "2.1.3" :: []) as Hargs by reflexivity.
  assert (length (Py.split "." "2.1.3") = 3) as Hlen by reflexivity.
  assert (currentDirectoryName e = "Color Selector") as Hname by reflexivity.
  assert (p ∈ clean_targets e) as Hp by apply list_elem_of_here.
  assert (p ∈ dirs (fs w)) as Hdir
    by (refine (bool_decide_unpack _ _); vm_compute; exact I).
  assert (refuses (fs w) p) as Href.
  { exists "C:\work\Color Selector\ColorSelector\bin\Debug\ColorSelector.dll".
    split; [|reflexivity].
    refine (bool_decide_unpack _ _). vm_compute. exact I. }
  split; [exact Hargs|]. split; [exact Hlen|]. split; [exact Hname|].
  split; [exact Hp|]. split; [exact Hdir|]. split; [exact Href|].
  exact (refused_removal_leaves_project_files e w "2.1.3" [] p
           Hargs Hlen Hname Hp Hdir Href).
Defined.
